(** * omegacn7500: the Omega CN7500 driver over a Modbus transport

    A shallow embedding of [omegacn7500.py].  The driver is a class whose
    methods validate their arguments, resolve a register address in the
    module-level tables and call the inherited [read_register],
    [write_register], [read_bit] and [write_bit] of
    [minimalmodbus.Instrument].  Methods are embedded as computations in a
    state-and-exception monad over the instrument; every transport call is
    recorded in a log so that statements about the number and the order of
    the calls can be made. *)

From Stdlib Require Import ZArith QArith Lia ZifyBool DecimalString.
From stdpp Require Import gmap strings list.

Close Scope Q_scope.
Open Scope Z_scope.

(** ** Python values *)

(** A Python number: an [int], or a finite [float] represented by the
    rational it denotes (comparisons between finite floats and ints are
    exact in Python).  NaN and the infinities are not represented. *)
Inductive number :=
| PyInt (z : Z)
| PyFloat (q : Q).

Definition num_val (n : number) : Q :=
  match n with
  | PyInt z => inject_Z z
  | PyFloat q => q
  end.

(** [a <= b], [a < b] and [a == b] on numbers. *)
Definition num_leb (a b : number) : bool := Qle_bool (num_val a) (num_val b).
Definition num_ltb (a b : number) : bool := negb (Qle_bool (num_val b) (num_val a)).
Definition num_eqb (a b : number) : bool := Qeq_bool (num_val a) (num_val b).

(** What a method hands back: [None], a number or a string. *)
Inductive pyval :=
| VNone
| VNum (n : number)
| VStr (s : string).

(** The exceptions the driver can end with.  [InvalidArgument] stands for the
    [ValueError]/[TypeError] of the [minimalmodbus] checkers (carrying their
    [description] argument), [ParseError] for the [ValueError] that
    [get_control_mode] raises itself (carrying the offending value instead of
    the formatted message), [TransportFailure] for whatever the transport
    raises. *)
Inductive exn :=
| InvalidArgument (description : string)
| ParseError (mode_value : number)
| IndexError
| KeyError
| TransportFailure (msg : string).

Inductive outcome (A : Type) :=
| Return (a : A)
| Raise (e : exn).
Arguments Return {A} a.
Arguments Raise {A} e.

(** [range(lo, hi)], a list in Python 2. *)
Definition range (lo hi : Z) : list Z :=
  map (fun i => lo + Z.of_nat i) (seq 0 (Z.to_nat (hi - lo))).

(** [l[i]]: negative indices count from the end, anything else out of
    range raises [IndexError]. *)
Definition py_index {A} (l : list A) (i : Z) : outcome A :=
  let n := Z.of_nat (length l) in
  let j := if i <? 0 then i + n else i in
  if (0 <=? j) && (j <? n) then
    match l !! Z.to_nat j with
    | Some x => Return x
    | None => Raise IndexError
    end
  else Raise IndexError.

(** [x in l] for an integer [x] and a list of integers. *)
Definition py_in (x : Z) (l : list Z) : bool := existsb (Z.eqb x) l.

(** The integer key a number hashes and compares equal to, if any: [2.0]
    finds the entry stored under [2]. *)
Definition dict_key (k : number) : option Z :=
  match k with
  | PyInt z => Some z
  | PyFloat q =>
      if Qnum q mod Zpos (Qden q) =? 0 then Some (Qnum q / Zpos (Qden q)) else None
  end.

(** [d[k]] on a dict with integer keys. *)
Definition dict_get {V} (d : gmap Z V) (k : number) : outcome V :=
  match dict_key k ≫= (d !!.) with
  | Some v => Return v
  | None => Raise KeyError
  end.

(** *** String formatting used by the [print] statements *)

(** [int(n)]: floats are truncated towards zero. *)
Definition py_int (n : number) : Z :=
  match n with
  | PyInt z => z
  | PyFloat q => Z.quot (Qnum q) (Zpos (Qden q))
  end.

(** ["%d" % n] *)
Definition fmt_d (n : number) : string := NilZero.string_of_int (Z.to_int (py_int n)).

(** Left-justify in a field of the given width (["%-4d"], ["%-17s"]). *)
Definition ljust (width : nat) (s : string) : string :=
  s +:+ String.concat "" (replicate (width - String.length s) " ").

(** ** The module-level tables *)

Definition setpoint_addresses : list (list Z) :=
  [range 8192 8200; range 8200 8208; range 8208 8216; range 8216 8224;
   range 8224 8232; range 8232 8240; range 8240 8248; range 8248 8256].
Definition time_addresses : list (list Z) :=
  [range 8320 8328; range 8328 8336; range 8336 8344; range 8344 8352;
   range 8352 8360; range 8360 8368; range 8368 8376; range 8376 8384].
Definition actual_step_addresses : list Z := range 4160 4168.
Definition additional_cycles_addresses : list Z := range 4176 4184.
Definition link_pattern_addresses : list Z := range 4192 4200.

Definition CONTROL_MODES : gmap Z string :=
  <[0 := "PID"]> (<[1 := "ON/OFF"]> (<[2 := "Manual Tuning"]> (<[3 := "Program"]> ∅))).

(** [SETPOINT_MAX = 999.9]: the double nearest to 999.9, as a rational. *)
Definition SETPOINT_MAX : number := PyFloat (8795213412905779 # 8796093022208).
Definition TIME_MAX : number := PyInt 900.

(** ** The transport *)

(** Modelled from the spec: [minimalmodbus.Instrument], the base class of the
    driver, is not among the sources.  Its four methods are taken as an
    interface over an arbitrary transport state; each either returns or
    raises, and may change the state of the link. *)
Class Transport (dev : Type) := {
  tr_read_register : Z -> Z -> dev -> outcome number * dev;
  tr_write_register : Z -> number -> Z -> dev -> outcome unit * dev;
  tr_read_bit : Z -> dev -> outcome Z * dev;
  tr_write_bit : Z -> Z -> dev -> outcome unit * dev
}.

(** One entry of the log per transport call, with the arguments passed. *)
Inductive call :=
| ReadRegister (registeraddress numberOfDecimals : Z)
| WriteRegister (registeraddress : Z) (value : number) (numberOfDecimals : Z)
| ReadBit (registeraddress : Z)
| WriteBit (registeraddress value : Z).

(** The instrument object: its two attributes, the transport it inherits,
    and the two observable traces (transport calls, printed lines). *)
Record instrument (dev : Type) := Instrument {
  setpoint_max : number;
  time_max : number;
  device : dev;
  calls : list call;
  stdout : list string
}.
Arguments Instrument {dev}.
Arguments setpoint_max {dev}.
Arguments time_max {dev}.
Arguments device {dev}.
Arguments calls {dev}.
Arguments stdout {dev}.

(** ** The monad of methods *)

Definition M (dev A : Type) : Type := instrument dev -> outcome A * instrument dev.

Definition ret {dev A} (a : A) : M dev A := fun self => (Return a, self).
Definition raise {dev A} (e : exn) : M dev A := fun self => (Raise e, self).
Definition lift {dev A} (o : outcome A) : M dev A := fun self => (o, self).
Definition bind {dev A B} (m : M dev A) (k : A -> M dev B) : M dev B :=
  fun self =>
    match m self with
    | (Return a, self') => k a self'
    | (Raise e, self') => (Raise e, self')
    end.

Notation "x <- m ;; k" := (bind m (fun x => k))
  (at level 100, m at next level, right associativity).
Notation "m ;; k" := (bind m (fun _ => k))
  (at level 100, right associativity).

(** [print line] *)
Definition print {dev} (line : string) : M dev unit :=
  fun self =>
    (Return tt,
     Instrument (setpoint_max self) (time_max self) (device self) (calls self)
       (stdout self ++ [line])).

(** ** Validators *)

(** Modelled from the spec: [minimalmodbus._checkInt] is not among the
    sources.  Following section 4.2 it returns when the integer lies within
    the bounds and otherwise fails with [InvalidArgument] naming the
    quantity; it performs no I/O. *)
Definition _checkInt (inputvalue minvalue maxvalue : Z) (description : string) : outcome unit :=
  if (inputvalue <? minvalue) || (maxvalue <? inputvalue)
  then Raise (InvalidArgument description)
  else Return tt.

(** Modelled from the spec: [minimalmodbus._checkNumerical] is not among the
    sources.  As [_checkInt], on numbers. *)
Definition _checkNumerical (inputvalue minvalue maxvalue : number) (description : string) : outcome unit :=
  if num_ltb inputvalue minvalue || num_ltb maxvalue inputvalue
  then Raise (InvalidArgument description)
  else Return tt.

Definition _checkPatternNumber (patternnumber : Z) : outcome unit :=
  _checkInt patternnumber 0 7 "pattern number".

Definition _checkStepNumber (stepnumber : Z) : outcome unit :=
  _checkInt stepnumber 0 7 "step number".

Definition _checkSetpointValue (setpointvalue maxvalue : number) : outcome unit :=
  _checkNumerical setpointvalue (PyInt 0) maxvalue "setpoint value".

Definition _checkTimeValue (timevalue maxvalue : number) : outcome unit :=
  _checkNumerical timevalue (PyInt 0) maxvalue "time value".

(** ** The driver class *)

Section OmegaCN7500.
Context {dev : Type} `{!Transport dev}.

Local Abbreviation M := (M dev).

Definition log (c : call) (d : dev) (self : instrument dev) : instrument dev :=
  Instrument (setpoint_max self) (time_max self) d (calls self ++ [c]) (stdout self).

(** The four inherited methods: one transport call each, logged whether
    it returns or raises. *)
Definition read_register (registeraddress numberOfDecimals : Z) : M number :=
  fun self =>
    let '(r, d) := tr_read_register registeraddress numberOfDecimals (device self) in
    (r, log (ReadRegister registeraddress numberOfDecimals) d self).

Definition write_register (registeraddress : Z) (value : number) (numberOfDecimals : Z) : M unit :=
  fun self =>
    let '(r, d) := tr_write_register registeraddress value numberOfDecimals (device self) in
    (r, log (WriteRegister registeraddress value numberOfDecimals) d self).

Definition read_bit (registeraddress : Z) : M Z :=
  fun self =>
    let '(r, d) := tr_read_bit registeraddress (device self) in
    (r, log (ReadBit registeraddress) d self).

Definition write_bit (registeraddress value : Z) : M unit :=
  fun self =>
    let '(r, d) := tr_write_bit registeraddress value (device self) in
    (r, log (WriteBit registeraddress value) d self).

(** [__init__]: a fresh instrument over the given link, with the default
    limits. *)
Definition init (d : dev) : instrument dev :=
  Instrument SETPOINT_MAX TIME_MAX d [] [].

(** *** Process value *)

Definition get_pv : M number := read_register 4096 1.

(** *** Run and stop the controller *)

Definition run : M unit := write_bit 2068 1.

Definition stop : M unit := write_bit 2068 0.

Definition is_running : M bool :=
  b <- read_bit 2068 ;; ret (b =? 1).

(** *** Setpoint *)

Definition get_setpoint : M number := read_register 4097 1.

Definition set_setpoint (value : number) : M unit :=
  fun self =>
    (lift (_checkSetpointValue value (setpoint_max self)) ;;
     write_register 4097 value 1) self.

(** *** Control mode *)

(** The source passes no [numberOfDecimals] for the control mode, nor for
    the reads of additional cycles and link below: the transport's default,
    0 decimals, is written out.  [try]/[except KeyError] becomes the match. *)
Definition get_control_mode : M string :=
  mode_value <- read_register 4101 0 ;;
  match dict_get CONTROL_MODES mode_value with
  | Return name => ret name
  | Raise KeyError => raise (ParseError mode_value)
  | Raise e => raise e
  end.

Definition set_control_mode (value : Z) : M unit :=
  lift (_checkInt value 0 3 "control mode") ;;
  write_register 4101 (PyInt value) 0.

(** *** Program pattern variables *)

Definition get_start_pattern_no : M number := read_register 4144 0.

Definition set_start_pattern_no (value : Z) : M unit :=
  lift (_checkPatternNumber value) ;;
  write_register 4144 (PyInt value) 0.

(** [table[pattern][step]] *)
Definition step_address (table : list (list Z)) (pattern step : Z) : outcome Z :=
  match py_index table pattern with
  | Return row => py_index row step
  | Raise e => Raise e
  end.

Definition get_pattern_step_setpoint (pattern step : Z) : M number :=
  lift (_checkPatternNumber pattern) ;;
  lift (_checkStepNumber step) ;;
  address <- lift (step_address setpoint_addresses pattern step) ;;
  read_register address 1.

Definition set_pattern_step_setpoint (pattern step : Z) (value : number) : M unit :=
  fun self =>
    (lift (_checkPatternNumber pattern) ;;
     lift (_checkStepNumber step) ;;
     lift (_checkSetpointValue value (setpoint_max self)) ;;
     address <- lift (step_address setpoint_addresses pattern step) ;;
     write_register address value 1) self.

Definition get_pattern_step_time (pattern step : Z) : M number :=
  lift (_checkPatternNumber pattern) ;;
  lift (_checkStepNumber step) ;;
  address <- lift (step_address time_addresses pattern step) ;;
  read_register address 0.

Definition set_pattern_step_time (pattern step : Z) (value : number) : M unit :=
  fun self =>
    (lift (_checkPatternNumber pattern) ;;
     lift (_checkStepNumber step) ;;
     lift (_checkTimeValue value (time_max self)) ;;
     address <- lift (step_address time_addresses pattern step) ;;
     write_register address value 0) self.

Definition get_pattern_actual_step (pattern : Z) : M pyval :=
  if (0 <=? pattern) && (pattern <=? 7) then
    address <- lift (py_index actual_step_addresses pattern) ;;
    v <- read_register address 0 ;;
    ret (VNum v)
  else ret (VStr "Not a valid pattern number, must be 0-7").

Definition set_pattern_actual_step (pattern value : Z) : M pyval :=
  if ((0 <=? pattern) && (pattern <=? 7)) && ((0 <=? value) && (value <=? 7)) then
    address <- lift (py_index actual_step_addresses pattern) ;;
    write_register address (PyInt value) 0 ;;
    ret VNone
  else if negb (py_in pattern (range 0 8)) then
    ret (VStr "Not a valid pattern number, must be 0-7")
  else if negb (py_in value (range 0 8)) then
    ret (VStr "Not a valid step number, must be 0-7")
  else ret VNone.

Definition get_pattern_additional_cycles (pattern : Z) : M pyval :=
  if (0 <=? pattern) && (pattern <=? 7) then
    address <- lift (py_index additional_cycles_addresses pattern) ;;
    v <- read_register address 0 ;;
    ret (VNum v)
  else ret (VStr "Not a valid pattern number, must be 0-7").

Definition set_pattern_additional_cycles (pattern value : Z) : M pyval :=
  if ((0 <=? pattern) && (pattern <=? 7)) && ((0 <=? value) && (value <=? 99)) then
    address <- lift (py_index additional_cycles_addresses pattern) ;;
    write_register address (PyInt value) 0 ;;
    ret VNone
  else if negb (py_in pattern (range 0 8)) then
    ret (VStr "Not a valid pattern number, must be 0-7")
  else if 99 <? value then
    ret (VStr "Not a valid number of additional cycles, must be 0-99")
  else ret VNone.

Definition get_pattern_link_topattern (pattern : Z) : M pyval :=
  if (0 <=? pattern) && (pattern <=? 7) then
    address <- lift (py_index link_pattern_addresses pattern) ;;
    v <- read_register address 0 ;;
    ret (VNum v)
  else ret (VStr "Not a valid pattern number, must be 0-7").

Definition set_pattern_link_topattern (pattern value : Z) : M pyval :=
  if ((0 <=? pattern) && (pattern <=? 7)) && ((0 <=? value) && (value <=? 8)) then
    address <- lift (py_index link_pattern_addresses pattern) ;;
    write_register address (PyInt value) 0 ;;
    ret VNone
  else if negb (py_in pattern (range 0 8)) then
    ret (VStr "Not a valid pattern number, must be 0-7")
  else if negb (py_in value (range 0 9)) then
    ret (VStr "Not a valid value, must be pattern 0-7 or 8 for OFF")
  else ret VNone.

(** The line of a step in the listing: ["%-2s %-4d %-2s %d"]. *)
Definition step_line (sp_label : string) (sp : number) (ti_label : string) (ti : number) : string :=
  ljust 2 sp_label +:+ " " +:+ ljust 4 (fmt_d sp) +:+ " " +:+ ljust 2 ti_label +:+ " " +:+ fmt_d ti.

(** The line of a per-pattern value: ["%-17s %d"]. *)
Definition value_line (label : string) (v : number) : string :=
  ljust 17 label +:+ " " +:+ fmt_d v.

Definition get_all_pattern_variables (pattern : Z) : M pyval :=
  if (0 <=? pattern) && (pattern <=? 7) then
    sp0_address <- lift (step_address setpoint_addresses pattern 0) ;;
    sp1_address <- lift (step_address setpoint_addresses pattern 1) ;;
    sp2_address <- lift (step_address setpoint_addresses pattern 2) ;;
    sp3_address <- lift (step_address setpoint_addresses pattern 3) ;;
    sp4_address <- lift (step_address setpoint_addresses pattern 4) ;;
    sp5_address <- lift (step_address setpoint_addresses pattern 5) ;;
    sp6_address <- lift (step_address setpoint_addresses pattern 6) ;;
    sp7_address <- lift (step_address setpoint_addresses pattern 7) ;;
    ti0_address <- lift (step_address time_addresses pattern 0) ;;
    ti1_address <- lift (step_address time_addresses pattern 1) ;;
    ti2_address <- lift (step_address time_addresses pattern 2) ;;
    ti3_address <- lift (step_address time_addresses pattern 3) ;;
    ti4_address <- lift (step_address time_addresses pattern 4) ;;
    ti5_address <- lift (step_address time_addresses pattern 5) ;;
    ti6_address <- lift (step_address time_addresses pattern 6) ;;
    ti7_address <- lift (step_address time_addresses pattern 7) ;;
    actual_step_address <- lift (py_index actual_step_addresses pattern) ;;
    additional_cycles_address <- lift (py_index additional_cycles_addresses pattern) ;;
    link_pattern_address <- lift (py_index link_pattern_addresses pattern) ;;
    sp0 <- read_register sp0_address 1 ;;
    sp1 <- read_register sp1_address 1 ;;
    sp2 <- read_register sp2_address 1 ;;
    sp3 <- read_register sp3_address 1 ;;
    sp4 <- read_register sp4_address 1 ;;
    sp5 <- read_register sp5_address 1 ;;
    sp6 <- read_register sp6_address 1 ;;
    sp7 <- read_register sp7_address 1 ;;
    ti0 <- read_register ti0_address 0 ;;
    ti1 <- read_register ti1_address 0 ;;
    ti2 <- read_register ti2_address 0 ;;
    ti3 <- read_register ti3_address 0 ;;
    ti4 <- read_register ti4_address 0 ;;
    ti5 <- read_register ti5_address 0 ;;
    ti6 <- read_register ti6_address 0 ;;
    ti7 <- read_register ti7_address 0 ;;
    actual_step <- read_register actual_step_address 0 ;;
    additional_cycles <- read_register additional_cycles_address 0 ;;
    link_pattern <- read_register link_pattern_address 0 ;;
    print (step_line "SP0:" sp0 "Time0:" ti0 +:+ " ") ;;
    print (step_line "SP1:" sp1 "Time1:" ti1) ;;
    print (step_line "SP2:" sp2 "Time2:" ti2) ;;
    print (step_line "SP3:" sp3 "Time3:" ti3) ;;
    print (step_line "SP4:" sp4 "Time4:" ti4) ;;
    print (step_line "SP5:" sp5 "Time5:" ti5) ;;
    print (step_line "SP6:" sp6 "Time6:" ti6) ;;
    print (step_line "SP7:" sp7 "Time7:" ti7) ;;
    print (value_line "Actual step:" actual_step) ;;
    print (value_line "Add'l cycles:" additional_cycles) ;;
    print (value_line "Linked pattern:" link_pattern) ;;
    ret VNone
  else ret VNone.

Definition set_all_pattern_variables
    (pattern : Z)
    (sp0 ti0 sp1 ti1 sp2 ti2 sp3 ti3 sp4 ti4 sp5 ti5 sp6 ti6 sp7 ti7 : number)
    (actual_step additional_cycles link_pattern : number) : M pyval :=
  sp0_address <- lift (step_address setpoint_addresses pattern 0) ;;
  sp1_address <- lift (step_address setpoint_addresses pattern 1) ;;
  sp2_address <- lift (step_address setpoint_addresses pattern 2) ;;
  sp3_address <- lift (step_address setpoint_addresses pattern 3) ;;
  sp4_address <- lift (step_address setpoint_addresses pattern 4) ;;
  sp5_address <- lift (step_address setpoint_addresses pattern 5) ;;
  sp6_address <- lift (step_address setpoint_addresses pattern 6) ;;
  sp7_address <- lift (step_address setpoint_addresses pattern 7) ;;
  ti0_address <- lift (step_address time_addresses pattern 0) ;;
  ti1_address <- lift (step_address time_addresses pattern 1) ;;
  ti2_address <- lift (step_address time_addresses pattern 2) ;;
  ti3_address <- lift (step_address time_addresses pattern 3) ;;
  ti4_address <- lift (step_address time_addresses pattern 4) ;;
  ti5_address <- lift (step_address time_addresses pattern 5) ;;
  ti6_address <- lift (step_address time_addresses pattern 6) ;;
  ti7_address <- lift (step_address time_addresses pattern 7) ;;
  actual_step_address <- lift (py_index actual_step_addresses pattern) ;;
  additional_cycles_address <- lift (py_index additional_cycles_addresses pattern) ;;
  link_pattern_address <- lift (py_index link_pattern_addresses pattern) ;;
  write_register sp0_address sp0 1 ;;
  write_register sp1_address sp1 1 ;;
  write_register sp2_address sp2 1 ;;
  write_register sp3_address sp3 1 ;;
  write_register sp4_address sp4 1 ;;
  write_register sp5_address sp5 1 ;;
  write_register sp6_address sp6 1 ;;
  write_register sp7_address sp7 1 ;;
  write_register ti0_address ti0 0 ;;
  write_register ti1_address ti1 0 ;;
  write_register ti2_address ti2 0 ;;
  write_register ti3_address ti3 0 ;;
  write_register ti4_address ti4 0 ;;
  write_register ti5_address ti5 0 ;;
  write_register ti6_address ti6 0 ;;
  write_register ti7_address ti7 0 ;;
  write_register actual_step_address actual_step 0 ;;
  write_register additional_cycles_address additional_cycles 0 ;;
  write_register link_pattern_address link_pattern 0 ;;
  ret VNone.

(** *** Output signal *)

Definition get_output1 : M number := read_register 0x1012 1.

End OmegaCN7500.

(** ** A mock transport *)

(** The idempotent mock of the testable properties: a register file and a
    coil file that keep what was written last and hand it back; a location
    never written reads as 0.  It never fails. *)
Record mock := Mock {
  registers : gmap Z number;
  coils : gmap Z Z
}.

#[global] Instance mock_transport : Transport mock := {|
  tr_read_register a _ m := (Return (default (PyInt 0) (registers m !! a)), m);
  tr_write_register a v _ m := (Return tt, Mock (<[a := v]> (registers m)) (coils m));
  tr_read_bit a m := (Return (default 0 (coils m !! a)), m);
  tr_write_bit a v m := (Return tt, Mock (registers m) (<[a := v]> (coils m)))
|}.

Definition blank : mock := Mock ∅ ∅.

(** What the mock under [self] answers to a read of register [a]. *)
Definition stored (self : instrument mock) (a : Z) : number :=
  default (PyInt 0) (registers (device self) !! a).

(** ** Observations *)

(** The outcome of a method started on [self]. *)
Definition result {dev A} (m : M dev A) (self : instrument dev) : outcome A := (m self).1.

(** The transport calls a method makes when started on [self], in order. *)
Definition calls_made {dev A} (m : M dev A) (self : instrument dev) : list call :=
  drop (length (calls self)) (calls (m self).2).

(** The lines a method prints when started on [self]. *)
Definition printed {dev A} (m : M dev A) (self : instrument dev) : list string :=
  drop (length (stdout self)) (stdout (m self).2).

Definition succeeds {A} (o : outcome A) : Prop :=
  match o with
  | Return _ => True
  | Raise _ => False
  end.

Definition num_le (a b : number) : Prop := (num_val a <= num_val b)%Q.

(** [lo <= v <= hi] on numbers. *)
Definition num_between (lo v hi : number) : Prop := num_le lo v /\ num_le v hi.

(** The transport never fails on a write, resp. on a read. *)
Definition writes_ok {dev} `{!Transport dev} : Prop :=
  forall a v d s, (tr_write_register a v d s).1 = Return tt.
Definition reads_ok {dev} `{!Transport dev} : Prop :=
  forall a d s, exists v, (tr_read_register a d s).1 = Return v.

(** [m], started on [self], ends with [o] without a transport call. *)
Definition without_io {dev A} (m : M dev A) (self : instrument dev) (o : outcome A) : Prop :=
  result m self = o /\ calls_made m self = [].

(** Wherever it is started, [m] ends with an outcome [o], having made the
    transport calls [cs] and printed the lines [ls], such that [Q o cs ls]. *)
Definition traces {dev A} (m : M dev A)
    (Q : outcome A -> list call -> list string -> Prop) : Prop :=
  forall self, exists cs ls,
    calls (m self).2 = calls self ++ cs /\
    stdout (m self).2 = stdout self ++ ls /\
    Q (m self).1 cs ls.

(** The 19 reads of the fields of a pattern, in the order
    [get_all_pattern_variables] makes them. *)
Definition pattern_reads (pattern : Z) : list call :=
  [ReadRegister (8192 + 8 * pattern + 0) 1; ReadRegister (8192 + 8 * pattern + 1) 1;
   ReadRegister (8192 + 8 * pattern + 2) 1; ReadRegister (8192 + 8 * pattern + 3) 1;
   ReadRegister (8192 + 8 * pattern + 4) 1; ReadRegister (8192 + 8 * pattern + 5) 1;
   ReadRegister (8192 + 8 * pattern + 6) 1; ReadRegister (8192 + 8 * pattern + 7) 1;
   ReadRegister (8320 + 8 * pattern + 0) 0; ReadRegister (8320 + 8 * pattern + 1) 0;
   ReadRegister (8320 + 8 * pattern + 2) 0; ReadRegister (8320 + 8 * pattern + 3) 0;
   ReadRegister (8320 + 8 * pattern + 4) 0; ReadRegister (8320 + 8 * pattern + 5) 0;
   ReadRegister (8320 + 8 * pattern + 6) 0; ReadRegister (8320 + 8 * pattern + 7) 0;
   ReadRegister (4160 + pattern) 0; ReadRegister (4176 + pattern) 0;
   ReadRegister (4192 + pattern) 0].

(** The 19 writes of the fields of a pattern, in the order
    [set_all_pattern_variables] makes them (its arguments come interleaved,
    setpoint and time of each step). *)
Definition pattern_writes (pattern : Z)
    (sp0 ti0 sp1 ti1 sp2 ti2 sp3 ti3 sp4 ti4 sp5 ti5 sp6 ti6 sp7 ti7 : number)
    (actual_step additional_cycles link_pattern : number) : list call :=
  [WriteRegister (8192 + 8 * pattern + 0) sp0 1; WriteRegister (8192 + 8 * pattern + 1) sp1 1;
   WriteRegister (8192 + 8 * pattern + 2) sp2 1; WriteRegister (8192 + 8 * pattern + 3) sp3 1;
   WriteRegister (8192 + 8 * pattern + 4) sp4 1; WriteRegister (8192 + 8 * pattern + 5) sp5 1;
   WriteRegister (8192 + 8 * pattern + 6) sp6 1; WriteRegister (8192 + 8 * pattern + 7) sp7 1;
   WriteRegister (8320 + 8 * pattern + 0) ti0 0; WriteRegister (8320 + 8 * pattern + 1) ti1 0;
   WriteRegister (8320 + 8 * pattern + 2) ti2 0; WriteRegister (8320 + 8 * pattern + 3) ti3 0;
   WriteRegister (8320 + 8 * pattern + 4) ti4 0; WriteRegister (8320 + 8 * pattern + 5) ti5 0;
   WriteRegister (8320 + 8 * pattern + 6) ti6 0; WriteRegister (8320 + 8 * pattern + 7) ti7 0;
   WriteRegister (4160 + pattern) actual_step 0;
   WriteRegister (4176 + pattern) additional_cycles 0;
   WriteRegister (4192 + pattern) link_pattern 0].

(** The 11 lines of the listing of a pattern. *)
Definition pattern_listing
    (sp0 sp1 sp2 sp3 sp4 sp5 sp6 sp7 ti0 ti1 ti2 ti3 ti4 ti5 ti6 ti7 : number)
    (actual_step additional_cycles link_pattern : number) : list string :=
  [step_line "SP0:" sp0 "Time0:" ti0 +:+ " ";
   step_line "SP1:" sp1 "Time1:" ti1;
   step_line "SP2:" sp2 "Time2:" ti2;
   step_line "SP3:" sp3 "Time3:" ti3;
   step_line "SP4:" sp4 "Time4:" ti4;
   step_line "SP5:" sp5 "Time5:" ti5;
   step_line "SP6:" sp6 "Time6:" ti6;
   step_line "SP7:" sp7 "Time7:" ti7;
   value_line "Actual step:" actual_step;
   value_line "Add'l cycles:" additional_cycles;
   value_line "Linked pattern:" link_pattern].

(** The order on (pattern, step) pairs: pattern first, then step. *)
Definition lex_lt (a b : Z * Z) : Prop := a.1 < b.1 \/ (a.1 = b.1 /\ a.2 < b.2).

(** What the transport answers to one call, made on the link in state [d]:
    the number read (the bit, for a coil), nothing for a write, or the
    exception it raises; and the state it leaves the link in. *)
Definition transport_call {dev} `{!Transport dev} (c : call) (d : dev)
    : outcome (list number) * dev :=
  match c with
  | ReadRegister a n =>
      let '(r, d') := tr_read_register a n d in
      (match r with Return v => Return [v] | Raise e => Raise e end, d')
  | WriteRegister a v n =>
      let '(r, d') := tr_write_register a v n d in
      (match r with Return _ => Return [] | Raise e => Raise e end, d')
  | ReadBit a =>
      let '(r, d') := tr_read_bit a d in
      (match r with Return b => Return [PyInt b] | Raise e => Raise e end, d')
  | WriteBit a v =>
      let '(r, d') := tr_write_bit a v d in
      (match r with Return _ => Return [] | Raise e => Raise e end, d')
  end.

(** What comes of making a list of calls, one after the other, on the link:
    the calls that were made, the numbers the reads among them returned, the
    exception that ended the sequence if one did, and the final state of
    the link. *)
Record replayed (dev : Type) := Replayed {
  made : list call;
  answers : list number;
  failure : option exn;
  final : dev
}.
Arguments Replayed {dev}.
Arguments made {dev}.
Arguments answers {dev}.
Arguments failure {dev}.
Arguments final {dev}.

(** The calls [cs] made in order on the link in state [d], up to and
    including the first that raises. *)
Fixpoint replay {dev} `{!Transport dev} (cs : list call) (d : dev) : replayed dev :=
  match cs with
  | [] => Replayed [] [] None d
  | c :: cs' =>
      match transport_call c d with
      | (Return vs, d') =>
          match replay cs' d' with
          | Replayed made' answers' failure' final' =>
              Replayed (c :: made') (vs ++ answers') failure' final'
          end
      | (Raise e, d') => Replayed [c] [] (Some e) d'
      end
  end.

(** The listing of the 19 values of a pattern, given in the order they are
    read. *)
Definition listing_of (vs : list number) : list string :=
  match vs with
  | [sp0; sp1; sp2; sp3; sp4; sp5; sp6; sp7; ti0; ti1; ti2; ti3; ti4; ti5; ti6; ti7;
     actual_step; additional_cycles; link_pattern] =>
      pattern_listing sp0 sp1 sp2 sp3 sp4 sp5 sp6 sp7 ti0 ti1 ti2 ti3 ti4 ti5 ti6 ti7
        actual_step additional_cycles link_pattern
  | _ => []
  end.

(** [m], started on [self], does to the link exactly what the replay of
    [cs] does, and nothing else to the instrument: its transport calls are
    the calls made by the replay and the link ends in the same state; if a
    call raised, the outcome is that exception and nothing is printed;
    otherwise the outcome is [O] and the printed lines are [L] of the
    numbers read. *)
Definition replays {dev} `{!Transport dev} {A} (m : M dev A) (self : instrument dev)
    (cs : list call) (O : list number -> outcome A) (L : list number -> list string)
    : Prop :=
  calls (m self).2 = calls self ++ made (replay cs (device self)) /\
  device (m self).2 = final (replay cs (device self)) /\
  match failure (replay cs (device self)) with
  | None =>
      (m self).1 = O (answers (replay cs (device self))) /\
      stdout (m self).2 = stdout self ++ L (answers (replay cs (device self)))
  | Some e => (m self).1 = Raise e /\ stdout (m self).2 = stdout self
  end.

(** [m], started on [self], leaves the two limits of the instrument as
    they were. *)
Definition keeps_limits {dev A} (m : M dev A) (self : instrument dev) : Prop :=
  setpoint_max (m self).2 = setpoint_max self /\ time_max (m self).2 = time_max self.

(** A link that goes dead: its state is the number of calls it still
    answers (reads with 0); every later call raises. *)
Definition dying : Transport nat := {|
  tr_read_register _ _ n :=
    match n with
    | O => (Raise (TransportFailure "no answer"), O)
    | S k => (Return (PyInt 0), k)
    end;
  tr_write_register _ _ _ n :=
    match n with
    | O => (Raise (TransportFailure "no answer"), O)
    | S k => (Return tt, k)
    end;
  tr_read_bit _ n :=
    match n with
    | O => (Raise (TransportFailure "no answer"), O)
    | S k => (Return 0, k)
    end;
  tr_write_bit _ _ n :=
    match n with
    | O => (Raise (TransportFailure "no answer"), O)
    | S k => (Return tt, k)
    end
|}.

(** The mock instrument after one successful write: the register holds the
    value and the call is logged. *)
Definition mock_written (self : instrument mock) (a : Z) (v : number) (d : Z) : instrument mock :=
  Instrument (setpoint_max self) (time_max self)
    (Mock (<[a := v]> (registers (device self))) (coils (device self)))
    (calls self ++ [WriteRegister a v d]) (stdout self).

(** The mock instrument after the writes of a list of calls, in order. *)
Definition mock_replay (self : instrument mock) (cs : list call) : instrument mock :=
  foldl (fun s c =>
           match c with
           | WriteRegister a v d => mock_written s a v d
           | _ => s
           end) self cs.

(** * Properties *)

(** ** Python lists *)

Lemma range_length lo hi : length (range lo hi) = Z.to_nat (hi - lo).
Proof. unfold range. by rewrite length_map, length_seq. Qed.

Lemma range_lookup lo hi (n : nat) :
  (n < Z.to_nat (hi - lo))%nat -> range lo hi !! n = Some (lo + Z.of_nat n).
Proof.
  intros Hn. unfold range.
  rewrite list_lookup_fmap, lookup_seq_lt by done. reflexivity.
Qed.

Lemma py_index_range lo hi i :
  0 <= i < hi - lo -> py_index (range lo hi) i = Return (lo + i).
Proof.
  intros Hi. unfold py_index. rewrite range_length.
  replace (i <? 0) with false by lia.
  replace ((0 <=? i) && (i <? Z.of_nat (Z.to_nat (hi - lo)))) with true by lia.
  rewrite range_lookup by lia. f_equal. lia.
Qed.

Lemma py_index_range_neg lo hi i :
  lo - hi <= i < 0 -> py_index (range lo hi) i = Return (hi + i).
Proof.
  intros Hi. unfold py_index. rewrite range_length.
  replace (i <? 0) with true by lia.
  replace ((0 <=? i + Z.of_nat (Z.to_nat (hi - lo))) &&
           (i + Z.of_nat (Z.to_nat (hi - lo)) <? Z.of_nat (Z.to_nat (hi - lo))))
    with true by lia.
  rewrite range_lookup by lia. f_equal. lia.
Qed.


Lemma py_in_range x lo hi : py_in x (range lo hi) = (lo <=? x) && (x <? hi).
Proof.
  unfold py_in. apply eq_true_iff_eq. rewrite existsb_exists. split.
  - intros (y & Hy & Heq). apply Z.eqb_eq in Heq. subst y.
    unfold range in Hy. apply in_map_iff in Hy as (n & <- & Hn).
    apply in_seq in Hn. lia.
  - intros Hx. exists x. split; [|lia].
    unfold range. apply in_map_iff. exists (Z.to_nat (x - lo)).
    split; [lia|]. apply in_seq. lia.
Qed.

(** ** The address tables *)

Ltac cases8 p :=
  let H := fresh in
  assert (p = 0 \/ p = 1 \/ p = 2 \/ p = 3 \/ p = 4 \/ p = 5 \/ p = 6 \/ p = 7) as H by lia;
  repeat destruct H as [H | H]; subst p.

Lemma setpoint_row pattern :
  0 <= pattern <= 7 ->
  py_index setpoint_addresses pattern = Return (range (8192 + 8 * pattern) (8200 + 8 * pattern)).
Proof. intros Hp. cases8 pattern; reflexivity. Qed.

Lemma time_row pattern :
  0 <= pattern <= 7 ->
  py_index time_addresses pattern = Return (range (8320 + 8 * pattern) (8328 + 8 * pattern)).
Proof. intros Hp. cases8 pattern; reflexivity. Qed.

Lemma setpoint_address pattern step :
  0 <= pattern <= 7 -> 0 <= step <= 7 ->
  step_address setpoint_addresses pattern step = Return (8192 + 8 * pattern + step).
Proof.
  intros Hp Hs. unfold step_address. rewrite setpoint_row by done.
  apply py_index_range. lia.
Qed.

Lemma time_address pattern step :
  0 <= pattern <= 7 -> 0 <= step <= 7 ->
  step_address time_addresses pattern step = Return (8320 + 8 * pattern + step).
Proof.
  intros Hp Hs. unfold step_address. rewrite time_row by done.
  apply py_index_range. lia.
Qed.

Lemma actual_step_address pattern :
  0 <= pattern <= 7 -> py_index actual_step_addresses pattern = Return (4160 + pattern).
Proof. intros Hp. apply py_index_range. lia. Qed.

Lemma additional_cycles_address pattern :
  0 <= pattern <= 7 -> py_index additional_cycles_addresses pattern = Return (4176 + pattern).
Proof. intros Hp. apply py_index_range. lia. Qed.

Lemma link_pattern_address pattern :
  0 <= pattern <= 7 -> py_index link_pattern_addresses pattern = Return (4192 + pattern).
Proof. intros Hp. apply py_index_range. lia. Qed.

(** ** Validators *)

Lemma _checkInt_ok v lo hi d : lo <= v <= hi -> _checkInt v lo hi d = Return tt.
Proof. intros Hv. unfold _checkInt. replace ((v <? lo) || (hi <? v)) with false by lia. done. Qed.

Lemma _checkInt_bad v lo hi d :
  v < lo \/ hi < v -> _checkInt v lo hi d = Raise (InvalidArgument d).
Proof. intros Hv. unfold _checkInt. replace ((v <? lo) || (hi <? v)) with true by lia. done. Qed.

Lemma num_leb_le a b : num_leb a b = true <-> num_le a b.
Proof. apply Qle_bool_iff. Qed.

Lemma num_ltb_nle a b : num_ltb a b = true <-> ~ num_le b a.
Proof.
  unfold num_ltb. rewrite negb_true_iff, <- num_leb_le. unfold num_leb.
  destruct (Qle_bool (num_val b) (num_val a)); split; congruence.
Qed.

Lemma _checkNumerical_ok v lo hi d :
  num_between lo v hi -> _checkNumerical v lo hi d = Return tt.
Proof.
  intros [Hlo Hhi]. unfold _checkNumerical.
  destruct (num_ltb v lo) eqn:E1; [apply num_ltb_nle in E1; contradiction|].
  destruct (num_ltb hi v) eqn:E2; [apply num_ltb_nle in E2; contradiction|].
  reflexivity.
Qed.

Lemma _checkNumerical_bad v lo hi d :
  ~ num_between lo v hi -> _checkNumerical v lo hi d = Raise (InvalidArgument d).
Proof.
  intros Hv. unfold _checkNumerical.
  destruct (num_ltb v lo) eqn:E1; [reflexivity|].
  destruct (num_ltb hi v) eqn:E2; [reflexivity|].
  exfalso. apply Hv. split.
  - destruct (Qle_bool (num_val lo) (num_val v)) eqn:E; [by apply Qle_bool_iff|].
    unfold num_ltb in E1. rewrite E in E1. discriminate.
  - destruct (Qle_bool (num_val v) (num_val hi)) eqn:E; [by apply Qle_bool_iff|].
    unfold num_ltb in E2. rewrite E in E2. discriminate.
Qed.

(** ** The log of transport calls *)

Section Log.
Context {dev : Type} `{!Transport dev}.

Lemma calls_made_intro {A} (m : M dev A) self cs :
  calls (m self).2 = calls self ++ cs -> calls_made m self = cs.
Proof. intros Hm. unfold calls_made. rewrite Hm. apply drop_app_length. Qed.

Lemma read_register_calls a d (self : instrument dev) :
  calls (read_register a d self).2 = calls self ++ [ReadRegister a d].
Proof. unfold read_register. by destruct (tr_read_register a d (device self)). Qed.

Lemma write_register_calls a v d (self : instrument dev) :
  calls (write_register a v d self).2 = calls self ++ [WriteRegister a v d].
Proof. unfold write_register. by destruct (tr_write_register a v d (device self)). Qed.

Lemma read_bit_calls a (self : instrument dev) :
  calls (read_bit a self).2 = calls self ++ [ReadBit a].
Proof. unfold read_bit. by destruct (tr_read_bit a (device self)). Qed.

Lemma write_bit_calls a v (self : instrument dev) :
  calls (write_bit a v self).2 = calls self ++ [WriteBit a v].
Proof. unfold write_bit. by destruct (tr_write_bit a v (device self)). Qed.

(** A continuation that makes no transport call adds nothing to the log
    of what precedes it. *)
Lemma bind_calls_quiet {A B} (m : M dev A) (k : A -> M dev B) self cs :
  calls (m self).2 = calls self ++ cs ->
  (forall a self', calls (k a self').2 = calls self') ->
  calls (bind m k self).2 = calls self ++ cs.
Proof.
  intros Hm Hk. unfold bind. destruct (m self) as [[a | e] self'].
  - rewrite Hk. exact Hm.
  - exact Hm.
Qed.

Lemma get_control_mode_calls (self : instrument dev) :
  calls (get_control_mode self).2 = calls self ++ [ReadRegister 4101 0].
Proof.
  unfold get_control_mode. apply bind_calls_quiet; [apply read_register_calls|].
  intros v self'. by destruct (dict_get CONTROL_MODES v) as [name | []].
Qed.

Lemma is_running_calls (self : instrument dev) :
  calls (is_running self).2 = calls self ++ [ReadBit 2068].
Proof. unfold is_running. apply bind_calls_quiet; [apply read_bit_calls | done]. Qed.

End Log.

(** ** What each method reduces to *)

Section Methods.
Context {dev : Type} `{!Transport dev}.
Implicit Types (self : instrument dev) (pattern step : Z) (value : number).

Lemma get_pattern_step_setpoint_valid pattern step self :
  0 <= pattern <= 7 -> 0 <= step <= 7 ->
  get_pattern_step_setpoint pattern step self
  = read_register (8192 + 8 * pattern + step) 1 self.
Proof.
  intros Hp Hs. unfold get_pattern_step_setpoint, _checkPatternNumber, _checkStepNumber.
  rewrite !_checkInt_ok, setpoint_address by done. reflexivity.
Qed.

Lemma get_pattern_step_time_valid pattern step self :
  0 <= pattern <= 7 -> 0 <= step <= 7 ->
  get_pattern_step_time pattern step self
  = read_register (8320 + 8 * pattern + step) 0 self.
Proof.
  intros Hp Hs. unfold get_pattern_step_time, _checkPatternNumber, _checkStepNumber.
  rewrite !_checkInt_ok, time_address by done. reflexivity.
Qed.

Lemma set_pattern_step_setpoint_valid pattern step value self :
  0 <= pattern <= 7 -> 0 <= step <= 7 ->
  num_between (PyInt 0) value (setpoint_max self) ->
  set_pattern_step_setpoint pattern step value self
  = write_register (8192 + 8 * pattern + step) value 1 self.
Proof.
  intros Hp Hs Hv.
  unfold set_pattern_step_setpoint, _checkPatternNumber, _checkStepNumber, _checkSetpointValue.
  rewrite !_checkInt_ok, _checkNumerical_ok, setpoint_address by done. reflexivity.
Qed.

Lemma set_pattern_step_time_valid pattern step value self :
  0 <= pattern <= 7 -> 0 <= step <= 7 ->
  num_between (PyInt 0) value (time_max self) ->
  set_pattern_step_time pattern step value self
  = write_register (8320 + 8 * pattern + step) value 0 self.
Proof.
  intros Hp Hs Hv.
  unfold set_pattern_step_time, _checkPatternNumber, _checkStepNumber, _checkTimeValue.
  rewrite !_checkInt_ok, _checkNumerical_ok, time_address by done. reflexivity.
Qed.

Lemma set_pattern_step_setpoint_bad_value pattern step value self :
  0 <= pattern <= 7 -> 0 <= step <= 7 ->
  ~ num_between (PyInt 0) value (setpoint_max self) ->
  set_pattern_step_setpoint pattern step value self
  = (Raise (InvalidArgument "setpoint value"), self).
Proof.
  intros Hp Hs Hv.
  unfold set_pattern_step_setpoint, _checkPatternNumber, _checkStepNumber, _checkSetpointValue.
  rewrite !_checkInt_ok, _checkNumerical_bad by done. reflexivity.
Qed.

Lemma set_pattern_step_time_bad_value pattern step value self :
  0 <= pattern <= 7 -> 0 <= step <= 7 ->
  ~ num_between (PyInt 0) value (time_max self) ->
  set_pattern_step_time pattern step value self
  = (Raise (InvalidArgument "time value"), self).
Proof.
  intros Hp Hs Hv.
  unfold set_pattern_step_time, _checkPatternNumber, _checkStepNumber, _checkTimeValue.
  rewrite !_checkInt_ok, _checkNumerical_bad by done. reflexivity.
Qed.

(** A method that ends where it started has made no transport call. *)
Lemma calls_made_unchanged {A} (m : M dev A) self o :
  m self = (o, self) -> calls_made m self = [] /\ printed m self = [].
Proof.
  intros Hm. unfold calls_made, printed. rewrite Hm. simpl.
  by rewrite !drop_all.
Qed.

Lemma write_register_result a v d self :
  writes_ok -> result (write_register a v d) self = Return tt.
Proof.
  intros Hw. unfold result, write_register. specialize (Hw a v d (device self)).
  by destruct (tr_write_register a v d (device self)).
Qed.

End Methods.

(** * The register map *)

(** C1. Every quantity sits at the documented address with the documented
    number of decimals: the process value is read at 4096 with 1 decimal,
    the setpoint at 4097 with 1 decimal (and written there), the control
    mode at 4101 with 0 decimals, the run/stop bit is 2068, the start
    pattern number is at 4144 with 0 decimals, the output at 4114 with 1
    decimal; step [s] of pattern [p] has its setpoint at 8192 + 8p + s
    (1 decimal) and its duration at 8320 + 8p + s (0 decimals), the two
    tables being the 64 contiguous addresses 8192..8255 and 8320..8383 cut
    in 8 rows of 8; actual step, additional cycles and link of pattern [p]
    are at 4160 + p, 4176 + p and 4192 + p. *)
Theorem register_map {dev : Type} `{!Transport dev} (self : instrument dev) :
  calls_made get_pv self = [ReadRegister 4096 1] /\
  calls_made get_setpoint self = [ReadRegister 4097 1] /\
  (forall value, num_between (PyInt 0) value (setpoint_max self) ->
     calls_made (set_setpoint value) self = [WriteRegister 4097 value 1]) /\
  calls_made get_control_mode self = [ReadRegister 4101 0] /\
  (forall value, 0 <= value <= 3 ->
     calls_made (set_control_mode value) self = [WriteRegister 4101 (PyInt value) 0]) /\
  calls_made run self = [WriteBit 2068 1] /\
  calls_made stop self = [WriteBit 2068 0] /\
  calls_made is_running self = [ReadBit 2068] /\
  calls_made get_start_pattern_no self = [ReadRegister 4144 0] /\
  (forall value, 0 <= value <= 7 ->
     calls_made (set_start_pattern_no value) self = [WriteRegister 4144 (PyInt value) 0]) /\
  calls_made get_output1 self = [ReadRegister 4114 1] /\
  (forall pattern step, 0 <= pattern <= 7 -> 0 <= step <= 7 ->
     step_address setpoint_addresses pattern step = Return (8192 + 8 * pattern + step) /\
     step_address time_addresses pattern step = Return (8320 + 8 * pattern + step) /\
     calls_made (get_pattern_step_setpoint pattern step) self
       = [ReadRegister (8192 + 8 * pattern + step) 1] /\
     calls_made (get_pattern_step_time pattern step) self
       = [ReadRegister (8320 + 8 * pattern + step) 0]) /\
  (concat setpoint_addresses = range 8192 8256 /\
   concat time_addresses = range 8320 8384 /\
   Forall (fun row => length row = 8%nat) setpoint_addresses /\
   Forall (fun row => length row = 8%nat) time_addresses /\
   length setpoint_addresses = 8%nat /\ length time_addresses = 8%nat) /\
  (actual_step_addresses = [4160; 4161; 4162; 4163; 4164; 4165; 4166; 4167] /\
   additional_cycles_addresses = [4176; 4177; 4178; 4179; 4180; 4181; 4182; 4183] /\
   link_pattern_addresses = [4192; 4193; 4194; 4195; 4196; 4197; 4198; 4199]) /\
  (forall pattern, 0 <= pattern <= 7 ->
     py_index actual_step_addresses pattern = Return (4160 + pattern) /\
     py_index additional_cycles_addresses pattern = Return (4176 + pattern) /\
     py_index link_pattern_addresses pattern = Return (4192 + pattern)).
Proof.
  repeat split.
  - apply calls_made_intro, read_register_calls.
  - apply calls_made_intro, read_register_calls.
  - intros value Hv. apply calls_made_intro. unfold set_setpoint, _checkSetpointValue.
    rewrite _checkNumerical_ok by done. apply write_register_calls.
  - apply calls_made_intro, get_control_mode_calls.
  - intros value Hv. apply calls_made_intro. unfold set_control_mode.
    rewrite _checkInt_ok by done. apply write_register_calls.
  - apply calls_made_intro, write_bit_calls.
  - apply calls_made_intro, write_bit_calls.
  - apply calls_made_intro, is_running_calls.
  - apply calls_made_intro, read_register_calls.
  - intros value Hv. apply calls_made_intro. unfold set_start_pattern_no, _checkPatternNumber.
    rewrite _checkInt_ok by done. apply write_register_calls.
  - apply calls_made_intro, read_register_calls.
  - by apply setpoint_address.
  - by apply time_address.
  - apply calls_made_intro. rewrite get_pattern_step_setpoint_valid by done.
    apply read_register_calls.
  - apply calls_made_intro. rewrite get_pattern_step_time_valid by done.
    apply read_register_calls.
  - repeat constructor.
  - repeat constructor.
  - by apply actual_step_address.
  - by apply additional_cycles_address.
  - by apply link_pattern_address.
Qed.

(** C2. Within the setpoint table, and within the duration table, the
    address of (pattern, step) is defined for all 64 pairs, grows strictly
    with the pair in lexicographic order, and no two pairs share one. *)
Theorem step_addresses_increasing_unique (table : list (list Z)) :
  table = setpoint_addresses \/ table = time_addresses ->
  forall pattern step pattern' step',
    0 <= pattern <= 7 -> 0 <= step <= 7 -> 0 <= pattern' <= 7 -> 0 <= step' <= 7 ->
    exists a a',
      step_address table pattern step = Return a /\
      step_address table pattern' step' = Return a' /\
      (lex_lt (pattern, step) (pattern', step') -> a < a') /\
      (a = a' -> (pattern, step) = (pattern', step')).
Proof.
  intros Ht pattern step pattern' step' Hp Hs Hp' Hs'.
  destruct Ht as [-> | ->].
  - exists (8192 + 8 * pattern + step), (8192 + 8 * pattern' + step').
    rewrite !setpoint_address by done. repeat split.
    + unfold lex_lt. simpl. lia.
    + intros Ha. f_equal; lia.
  - exists (8320 + 8 * pattern + step), (8320 + 8 * pattern' + step').
    rewrite !time_address by done. repeat split.
    + unfold lex_lt. simpl. lia.
    + intros Ha. f_equal; lia.
Qed.

Lemma step_addresses_increasing_unique_witness :
  exists a a',
    step_address time_addresses 0 7 = Return a /\
    step_address time_addresses 1 0 = Return a' /\
    (lex_lt (0, 7) (1, 0) -> a < a') /\
    (a = a' -> (0, 7) = (1, 0)).
Proof.
  apply (step_addresses_increasing_unique time_addresses (or_intror eq_refl) 0 7 1 0); lia.
Defined.

(** * Writing one step *)



(** * The limits on step values *)

Lemma num_between_dec lo v hi : {num_between lo v hi} + {~ num_between lo v hi}.
Proof.
  unfold num_between, num_le.
  destruct (Qlt_le_dec (num_val v) (num_val lo)) as [H1 | H1].
  - right. intros [H _]. by apply Qlt_not_le in H1.
  - destruct (Qlt_le_dec (num_val hi) (num_val v)) as [H2 | H2].
    + right. intros [_ H]. by apply Qlt_not_le in H2.
    + by left.
Qed.

(** C7. Over a transport whose writes do not fail and for valid pattern and
    step, [set_pattern_step_setpoint] succeeds exactly when
    0 <= value <= setpoint_max of the instrument, and
    [set_pattern_step_time] exactly when 0 <= value <= time_max; a value
    outside fails with [InvalidArgument] and no transport call is made. *)
Theorem set_pattern_step_value_checked {dev : Type} `{!Transport dev}
    (self : instrument dev) (pattern step : Z) (value : number) :
  writes_ok -> 0 <= pattern <= 7 -> 0 <= step <= 7 ->
  ((succeeds (result (set_pattern_step_setpoint pattern step value) self)
    <-> num_between (PyInt 0) value (setpoint_max self)) /\
   (~ num_between (PyInt 0) value (setpoint_max self) ->
    result (set_pattern_step_setpoint pattern step value) self
      = Raise (InvalidArgument "setpoint value") /\
    calls_made (set_pattern_step_setpoint pattern step value) self = [])) /\
  ((succeeds (result (set_pattern_step_time pattern step value) self)
    <-> num_between (PyInt 0) value (time_max self)) /\
   (~ num_between (PyInt 0) value (time_max self) ->
    result (set_pattern_step_time pattern step value) self
      = Raise (InvalidArgument "time value") /\
    calls_made (set_pattern_step_time pattern step value) self = [])).
Proof.
  intros Hw Hp Hs. split.
  - destruct (num_between_dec (PyInt 0) value (setpoint_max self)) as [Hv | Hv].
    + split; [|done]. split; [done|]. intros _.
      unfold result. rewrite set_pattern_step_setpoint_valid by done.
      fold (result (write_register (8192 + 8 * pattern + step) value 1) self).
      by rewrite write_register_result.
    + pose proof (set_pattern_step_setpoint_bad_value pattern step value self Hp Hs Hv) as E.
      split; [split; [|done] | intros _; split].
      * unfold result. by rewrite E.
      * unfold result. by rewrite E.
      * by apply calls_made_unchanged in E as [? _].
  - destruct (num_between_dec (PyInt 0) value (time_max self)) as [Hv | Hv].
    + split; [|done]. split; [done|]. intros _.
      unfold result. rewrite set_pattern_step_time_valid by done.
      fold (result (write_register (8320 + 8 * pattern + step) value 0) self).
      by rewrite write_register_result.
    + pose proof (set_pattern_step_time_bad_value pattern step value self Hp Hs Hv) as E.
      split; [split; [|done] | intros _; split].
      * unfold result. by rewrite E.
      * unfold result. by rewrite E.
      * by apply calls_made_unchanged in E as [? _].
Qed.

Lemma mock_writes_ok : @writes_ok mock mock_transport.
Proof. intros a v d s. reflexivity. Defined.

Lemma mock_reads_ok : @reads_ok mock mock_transport.
Proof. intros a d s. eexists. reflexivity. Defined.

Lemma set_pattern_step_value_checked_witness :
  ((succeeds (result (set_pattern_step_setpoint 0 0 (PyInt 950)) (init blank))
    <-> num_between (PyInt 0) (PyInt 950) (setpoint_max (init blank))) /\
   (~ num_between (PyInt 0) (PyInt 950) (setpoint_max (init blank)) ->
    result (set_pattern_step_setpoint 0 0 (PyInt 950)) (init blank)
      = Raise (InvalidArgument "setpoint value") /\
    calls_made (set_pattern_step_setpoint 0 0 (PyInt 950)) (init blank) = [])) /\
  ((succeeds (result (set_pattern_step_time 0 0 (PyInt 950)) (init blank))
    <-> num_between (PyInt 0) (PyInt 950) (time_max (init blank))) /\
   (~ num_between (PyInt 0) (PyInt 950) (time_max (init blank)) ->
    result (set_pattern_step_time 0 0 (PyInt 950)) (init blank)
      = Raise (InvalidArgument "time value") /\
    calls_made (set_pattern_step_time 0 0 (PyInt 950)) (init blank) = [])).
Proof.
  apply (set_pattern_step_value_checked (init blank) 0 0 (PyInt 950) mock_writes_ok); lia.
Defined.

(** * The control mode *)

(** A number is the key [k] of a dict exactly when it compares equal to
    the integer [k]. *)
Lemma dict_key_eqb v k : num_eqb v (PyInt k) = true <-> dict_key v = Some k.
Proof.
  unfold num_eqb, Qeq_bool. destruct v as [z | [n d]]; simpl; rewrite Z.eqb_eq.
  - split; [intros Hz; f_equal; lia | intros [= ->]; lia].
  - split.
    + intros Hn. assert (n = k * Z.pos d) as -> by lia.
      rewrite Z_mod_mult, Z_div_mult by lia. done.
    + destruct (n mod Z.pos d =? 0) eqn:E; [|done].
      intros [= <-]. pose proof (Z_div_mod_eq_full n (Z.pos d)). lia.
Qed.

Lemma CONTROL_MODES_other k : ~ 0 <= k <= 3 -> CONTROL_MODES !! k = None.
Proof.
  intros Hk. unfold CONTROL_MODES.
  rewrite !lookup_insert_ne by lia. apply lookup_empty.
Qed.

Lemma dict_get_CONTROL_MODES v k name :
  CONTROL_MODES !! k = Some name -> num_eqb v (PyInt k) = true ->
  dict_get CONTROL_MODES v = Return name.
Proof.
  intros Hk Hv. apply dict_key_eqb in Hv. unfold dict_get. rewrite Hv. simpl.
  by rewrite Hk.
Qed.

Lemma dict_get_CONTROL_MODES_unmapped v :
  num_eqb v (PyInt 0) = false -> num_eqb v (PyInt 1) = false ->
  num_eqb v (PyInt 2) = false -> num_eqb v (PyInt 3) = false ->
  dict_get CONTROL_MODES v = Raise KeyError.
Proof.
  intros H0 H1 H2 H3. unfold dict_get.
  destruct (dict_key v) as [k |] eqn:Hk; [|done]. simpl.
  rewrite CONTROL_MODES_other; [done|].
  intros Hr. apply dict_key_eqb in Hk.
  assert (k = 0 \/ k = 1 \/ k = 2 \/ k = 3) as [-> | [-> | [-> | ->]]] by lia; congruence.
Qed.

Lemma get_control_mode_result {dev : Type} `{!Transport dev} (self : instrument dev) mode_value :
  result (read_register 4101 0) self = Return mode_value ->
  result get_control_mode self
  = match dict_get CONTROL_MODES mode_value with
    | Return name => Return name
    | Raise KeyError => Raise (ParseError mode_value)
    | Raise e => Raise e
    end.
Proof.
  unfold result, get_control_mode, bind.
  destruct (read_register 4101 0 self) as [r self']. simpl. intros ->.
  by destruct (dict_get CONTROL_MODES mode_value) as [name | []].
Qed.

(** C8. When the device answers the read of register 4101 with code 0, 1,
    2 or 3, [get_control_mode] returns "PID", "ON/OFF", "Manual Tuning" or
    "Program"; with any other code it fails with [ParseError].
    [set_control_mode] fails with [InvalidArgument], before any transport
    call, for every code outside 0..3.  On the mock transport,
    [get_control_mode] after [set_control_mode 2] returns "Manual Tuning". *)
Theorem control_mode_codes {dev : Type} `{!Transport dev} (self : instrument dev) :
  (forall mode_value, result (read_register 4101 0) self = Return mode_value ->
     (num_eqb mode_value (PyInt 0) = true -> result get_control_mode self = Return "PID") /\
     (num_eqb mode_value (PyInt 1) = true -> result get_control_mode self = Return "ON/OFF") /\
     (num_eqb mode_value (PyInt 2) = true ->
        result get_control_mode self = Return "Manual Tuning") /\
     (num_eqb mode_value (PyInt 3) = true -> result get_control_mode self = Return "Program") /\
     (num_eqb mode_value (PyInt 0) = false -> num_eqb mode_value (PyInt 1) = false ->
      num_eqb mode_value (PyInt 2) = false -> num_eqb mode_value (PyInt 3) = false ->
        result get_control_mode self = Raise (ParseError mode_value))) /\
  (forall value, ~ 0 <= value <= 3 ->
     result (set_control_mode value) self = Raise (InvalidArgument "control mode") /\
     calls_made (set_control_mode value) self = []) /\
  (forall m : instrument mock,
     result (set_control_mode 2 ;; get_control_mode) m = Return "Manual Tuning").
Proof.
  split; [|split].
  - intros mode_value Hread. rewrite (get_control_mode_result self mode_value Hread).
    repeat split.
    + intros Hv. by rewrite (dict_get_CONTROL_MODES mode_value 0 "PID").
    + intros Hv. by rewrite (dict_get_CONTROL_MODES mode_value 1 "ON/OFF").
    + intros Hv. by rewrite (dict_get_CONTROL_MODES mode_value 2 "Manual Tuning").
    + intros Hv. by rewrite (dict_get_CONTROL_MODES mode_value 3 "Program").
    + intros H0 H1 H2 H3. by rewrite dict_get_CONTROL_MODES_unmapped.
  - intros value Hv.
    assert (set_control_mode value self = (Raise (InvalidArgument "control mode"), self)) as E.
    { unfold set_control_mode. rewrite _checkInt_bad by lia. reflexivity. }
    split; [unfold result; by rewrite E|]. by apply calls_made_unchanged in E as [? _].
  - intros m. unfold result, set_control_mode, get_control_mode, bind, lift,
      read_register, write_register. simpl.
    rewrite lookup_insert_eq. reflexivity.
Qed.

(** * Invalid indices *)

Section Invalid.
Context {dev : Type} `{!Transport dev}.
Implicit Types (self : instrument dev) (pattern step : Z).

Lemma without_io_intro {A} (m : M dev A) self o : m self = (o, self) -> without_io m self o.
Proof.
  intros E. split; [unfold result; by rewrite E|].
  by apply calls_made_unchanged in E as [? _].
Qed.



Lemma get_pattern_actual_step_bad_pattern pattern self :
  ~ 0 <= pattern <= 7 ->
  get_pattern_actual_step pattern self
  = (Return (VStr "Not a valid pattern number, must be 0-7"), self).
Proof.
  intros Hp. unfold get_pattern_actual_step.
  replace ((0 <=? pattern) && (pattern <=? 7)) with false by lia. reflexivity.
Qed.

Lemma set_pattern_actual_step_bad_pattern pattern value self :
  ~ 0 <= pattern <= 7 ->
  set_pattern_actual_step pattern value self
  = (Return (VStr "Not a valid pattern number, must be 0-7"), self).
Proof.
  intros Hp. unfold set_pattern_actual_step. rewrite py_in_range.
  replace ((0 <=? pattern) && (pattern <=? 7)) with false by lia.
  replace ((0 <=? pattern) && (pattern <? 8)) with false by lia. reflexivity.
Qed.

Lemma set_pattern_actual_step_bad_value pattern value self :
  0 <= pattern <= 7 -> ~ 0 <= value <= 7 ->
  set_pattern_actual_step pattern value self
  = (Return (VStr "Not a valid step number, must be 0-7"), self).
Proof.
  intros Hp Hv. unfold set_pattern_actual_step. rewrite !py_in_range.
  replace ((0 <=? pattern) && (pattern <=? 7)) with true by lia.
  replace ((0 <=? pattern) && (pattern <? 8)) with true by lia.
  replace ((0 <=? value) && (value <=? 7)) with false by lia.
  replace ((0 <=? value) && (value <? 8)) with false by lia. reflexivity.
Qed.



Lemma set_pattern_additional_cycles_above pattern value self :
  0 <= pattern <= 7 -> 99 < value ->
  set_pattern_additional_cycles pattern value self
  = (Return (VStr "Not a valid number of additional cycles, must be 0-99"), self).
Proof.
  intros Hp Hv. unfold set_pattern_additional_cycles. rewrite py_in_range.
  replace ((0 <=? pattern) && (pattern <=? 7)) with true by lia.
  replace ((0 <=? pattern) && (pattern <? 8)) with true by lia.
  replace ((0 <=? value) && (value <=? 99)) with false by lia.
  replace (99 <? value) with true by lia. reflexivity.
Qed.

Lemma set_pattern_additional_cycles_below pattern value self :
  0 <= pattern <= 7 -> value < 0 ->
  set_pattern_additional_cycles pattern value self = (Return VNone, self).
Proof.
  intros Hp Hv. unfold set_pattern_additional_cycles. rewrite py_in_range.
  replace ((0 <=? pattern) && (pattern <=? 7)) with true by lia.
  replace ((0 <=? pattern) && (pattern <? 8)) with true by lia.
  replace ((0 <=? value) && (value <=? 99)) with false by lia.
  replace (99 <? value) with false by lia. reflexivity.
Qed.

Lemma set_pattern_additional_cycles_valid pattern value self :
  0 <= pattern <= 7 -> 0 <= value <= 99 ->
  set_pattern_additional_cycles pattern value self
  = (write_register (4176 + pattern) (PyInt value) 0 ;; ret VNone) self.
Proof.
  intros Hp Hv. unfold set_pattern_additional_cycles.
  replace ((0 <=? pattern) && (pattern <=? 7)) with true by lia.
  replace ((0 <=? value) && (value <=? 99)) with true by lia.
  simpl. rewrite additional_cycles_address by done. reflexivity.
Qed.





End Invalid.

(** * Whole patterns *)

Ltac cases16 p :=
  let H := fresh in
  assert (p = -8 \/ p = -7 \/ p = -6 \/ p = -5 \/ p = -4 \/ p = -3 \/ p = -2 \/ p = -1 \/
          p = 0 \/ p = 1 \/ p = 2 \/ p = 3 \/ p = 4 \/ p = 5 \/ p = 6 \/ p = 7) as H by lia;
  repeat destruct H as [H | H]; subst p.

(** With Python's indexing the tables answer for -8..7: a negative pattern
    selects the row of [pattern + 8]. *)
Lemma setpoint_address_wrapped pattern step :
  -8 <= pattern <= 7 -> 0 <= step <= 7 ->
  step_address setpoint_addresses pattern step = Return (8192 + 8 * (pattern mod 8) + step).
Proof.
  intros Hp Hs. unfold step_address.
  assert (py_index setpoint_addresses pattern
          = Return (range (8192 + 8 * (pattern mod 8)) (8200 + 8 * (pattern mod 8)))) as ->
    by (cases16 pattern; reflexivity).
  apply py_index_range. lia.
Qed.

Lemma time_address_wrapped pattern step :
  -8 <= pattern <= 7 -> 0 <= step <= 7 ->
  step_address time_addresses pattern step = Return (8320 + 8 * (pattern mod 8) + step).
Proof.
  intros Hp Hs. unfold step_address.
  assert (py_index time_addresses pattern
          = Return (range (8320 + 8 * (pattern mod 8)) (8328 + 8 * (pattern mod 8)))) as ->
    by (cases16 pattern; reflexivity).
  apply py_index_range. lia.
Qed.

Lemma py_index_range_wrapped lo pattern :
  -8 <= pattern <= 7 -> py_index (range lo (lo + 8)) pattern = Return (lo + pattern mod 8).
Proof.
  intros Hp. destruct (Z.lt_ge_cases pattern 0).
  - rewrite py_index_range_neg by lia. f_equal. Z.div_mod_to_equations. lia.
  - rewrite py_index_range by lia. f_equal. Z.div_mod_to_equations. lia.
Qed.

Section Composite.
Context {dev : Type} `{!Transport dev}.
Implicit Types (self : instrument dev) (pattern : Z).

Lemma write_register_stdout a v d self :
  stdout (write_register a v d self).2 = stdout self.
Proof. unfold write_register. by destruct (tr_write_register a v d (device self)). Qed.

Lemma read_register_stdout a d self :
  stdout (read_register a d self).2 = stdout self.
Proof. unfold read_register. by destruct (tr_read_register a d (device self)). Qed.

Lemma read_register_result a d self :
  reads_ok -> exists v, result (read_register a d) self = Return v.
Proof.
  intros Hr. unfold result, read_register. destruct (Hr a d (device self)) as [v Hv].
  exists v. by destruct (tr_read_register a d (device self)).
Qed.

Lemma traces_ret {A} (a : A) (Q : outcome A -> list call -> list string -> Prop) :
  Q (Return a) [] [] -> traces (ret (dev := dev) a) Q.
Proof. intros HQ self. exists [], []. by rewrite !app_nil_r. Qed.

Lemma traces_lift_bind {A B} (a : A) (k : A -> M dev B) R :
  traces (k a) R -> traces (bind (lift (Return a)) k) R.
Proof. intros Hk self. apply Hk. Qed.

Lemma traces_write_bind {B} a v d (k : unit -> M dev B) R :
  writes_ok ->
  traces (k tt) (fun o cs ls => R o (WriteRegister a v d :: cs) ls) ->
  traces (bind (write_register a v d) k) R.
Proof.
  intros Hw Hk self. unfold bind.
  pose proof (write_register_result a v d self Hw) as Hres.
  pose proof (write_register_calls a v d self) as Hcalls.
  pose proof (write_register_stdout a v d self) as Hout.
  unfold result in Hres. destruct (write_register a v d self) as [r self1].
  simpl in *. subst r.
  destruct (Hk self1) as (cs & ls & Hc & Hs & HR).
  exists (WriteRegister a v d :: cs), ls. split_and!; [|congruence|done].
  rewrite Hc, Hcalls, <- app_assoc. reflexivity.
Qed.

Lemma traces_read_bind {B} a d (k : number -> M dev B) R :
  reads_ok ->
  (forall v, traces (k v) (fun o cs ls => R o (ReadRegister a d :: cs) ls)) ->
  traces (bind (read_register a d) k) R.
Proof.
  intros Hr Hk self. unfold bind.
  destruct (read_register_result a d self Hr) as [v Hres].
  pose proof (read_register_calls a d self) as Hcalls.
  pose proof (read_register_stdout a d self) as Hout.
  unfold result in Hres. destruct (read_register a d self) as [r self1].
  simpl in *. subst r.
  destruct (Hk v self1) as (cs & ls & Hc & Hs & HR).
  exists (ReadRegister a d :: cs), ls. split_and!; [|congruence|done].
  rewrite Hc, Hcalls, <- app_assoc. reflexivity.
Qed.

Lemma traces_print_bind {B} line (k : unit -> M dev B) R :
  traces (k tt) (fun o cs ls => R o cs (line :: ls)) ->
  traces (bind (print line) k) R.
Proof.
  intros Hk self. unfold bind, print.
  destruct (Hk (Instrument (setpoint_max self) (time_max self) (device self)
                  (calls self) (stdout self ++ [line]))) as (cs & ls & Hc & Hs & HR).
  exists cs, (line :: ls). split_and!; [done| |done].
  rewrite Hs. simpl. rewrite <- app_assoc. reflexivity.
Qed.

Lemma traces_elim {A} (m : M dev A) R self :
  traces m R -> R (result m self) (calls_made m self) (printed m self).
Proof.
  intros Hm. destruct (Hm self) as (cs & ls & Hc & Hs & HR).
  unfold calls_made, printed. rewrite Hc, Hs, !drop_app_length. exact HR.
Qed.

Lemma set_all_pattern_variables_writes pattern
    sp0 ti0 sp1 ti1 sp2 ti2 sp3 ti3 sp4 ti4 sp5 ti5 sp6 ti6 sp7 ti7
    actual_step additional_cycles link_pattern :
  writes_ok -> -8 <= pattern <= 7 ->
  traces
    (set_all_pattern_variables pattern sp0 ti0 sp1 ti1 sp2 ti2 sp3 ti3 sp4 ti4
       sp5 ti5 sp6 ti6 sp7 ti7 actual_step additional_cycles link_pattern)
    (fun o cs ls =>
       o = Return VNone /\ ls = [] /\
       cs = pattern_writes (pattern mod 8) sp0 ti0 sp1 ti1 sp2 ti2 sp3 ti3 sp4 ti4
              sp5 ti5 sp6 ti6 sp7 ti7 actual_step additional_cycles link_pattern).
Proof.
  intros Hw Hp. unfold set_all_pattern_variables.
  rewrite !setpoint_address_wrapped, !time_address_wrapped by lia.
  unfold actual_step_addresses, additional_cycles_addresses, link_pattern_addresses.
  rewrite (py_index_range_wrapped 4160), (py_index_range_wrapped 4176),
    (py_index_range_wrapped 4192) by done.
  do 19 apply traces_lift_bind.
  do 19 (apply traces_write_bind; [done|]).
  by apply traces_ret.
Qed.

Lemma get_all_pattern_variables_reads pattern :
  reads_ok -> 0 <= pattern <= 7 ->
  traces (get_all_pattern_variables pattern)
    (fun o cs ls =>
       o = Return VNone /\ cs = pattern_reads pattern /\
       exists sp0 sp1 sp2 sp3 sp4 sp5 sp6 sp7 ti0 ti1 ti2 ti3 ti4 ti5 ti6 ti7
              actual_step additional_cycles link_pattern,
         ls = pattern_listing sp0 sp1 sp2 sp3 sp4 sp5 sp6 sp7
                ti0 ti1 ti2 ti3 ti4 ti5 ti6 ti7
                actual_step additional_cycles link_pattern).
Proof.
  intros Hr Hp. unfold get_all_pattern_variables.
  replace ((0 <=? pattern) && (pattern <=? 7)) with true by lia.
  rewrite !setpoint_address, !time_address, actual_step_address,
    additional_cycles_address, link_pattern_address by lia.
  do 19 apply traces_lift_bind.
  do 19 (apply traces_read_bind; [done|]; intros ?).
  do 11 apply traces_print_bind.
  apply traces_ret. split_and!; [done | done |].
  repeat eexists.
Qed.

End Composite.

(** ** Sequences of calls, replayed on the transport *)

Section Replay.
Context {dev : Type} `{!Transport dev}.
Implicit Types (self : instrument dev) (d : dev).

Lemma replay_cons_ok c cs d vs d1 :
  transport_call c d = (Return vs, d1) ->
  made (replay (c :: cs) d) = c :: made (replay cs d1) /\
  answers (replay (c :: cs) d) = vs ++ answers (replay cs d1) /\
  failure (replay (c :: cs) d) = failure (replay cs d1) /\
  final (replay (c :: cs) d) = final (replay cs d1).
Proof. intros Hc. simpl. rewrite Hc. by destruct (replay cs d1). Qed.

Lemma replay_cons_fail c cs d e d1 :
  transport_call c d = (Raise e, d1) ->
  replay (c :: cs) d = Replayed [c] [] (Some e) d1.
Proof. intros Hc. simpl. by rewrite Hc. Qed.

Lemma replays_lift {A B} (a : A) (k : A -> M dev B) self cs O L :
  replays (k a) self cs O L -> replays (bind (lift (Return a)) k) self cs O L.
Proof. intros Hk. exact Hk. Qed.

Lemma replays_read {B} a n (k : number -> M dev B) self rest O L :
  (forall v self1,
     replays (k v) self1 rest (fun vs => O (v :: vs)) (fun vs => L (v :: vs))) ->
  replays (bind (read_register a n) k) self (ReadRegister a n :: rest) O L.
Proof.
  intros Hk. unfold replays, bind, read_register.
  destruct (tr_read_register a n (device self)) as [[v | e] d1] eqn:Hread.
  - destruct (replay_cons_ok (ReadRegister a n) rest (device self) [v] d1)
      as (Hm & Ha & Hf & Hfin); [simpl; by rewrite Hread|].
    rewrite Hm, Ha, Hf, Hfin.
    destruct (Hk v (log (ReadRegister a n) d1 self)) as (Hc & Hd & Hrest).
    cbn [device calls stdout log] in Hc, Hd, Hrest.
    split; [|split].
    + rewrite Hc, <- app_assoc. reflexivity.
    + exact Hd.
    + exact Hrest.
  - assert (transport_call (ReadRegister a n) (device self) = (Raise e, d1)) as Hcall.
    { simpl. by rewrite Hread. }
    rewrite (replay_cons_fail _ rest _ e d1 Hcall). cbn [failure made answers final].
    split_and!; reflexivity.
Qed.

Lemma replays_write {B} a v n (k : unit -> M dev B) self rest O L :
  (forall self1, replays (k tt) self1 rest O L) ->
  replays (bind (write_register a v n) k) self (WriteRegister a v n :: rest) O L.
Proof.
  intros Hk. unfold replays, bind, write_register.
  destruct (tr_write_register a v n (device self)) as [[[] | e] d1] eqn:Hwrite.
  - destruct (replay_cons_ok (WriteRegister a v n) rest (device self) [] d1)
      as (Hm & Ha & Hf & Hfin); [simpl; by rewrite Hwrite|].
    rewrite Hm, Ha, Hf, Hfin.
    destruct (Hk (log (WriteRegister a v n) d1 self)) as (Hc & Hd & Hrest).
    cbn [device calls stdout log] in Hc, Hd, Hrest.
    split; [|split].
    + rewrite Hc, <- app_assoc. reflexivity.
    + exact Hd.
    + exact Hrest.
  - assert (transport_call (WriteRegister a v n) (device self) = (Raise e, d1)) as Hcall.
    { simpl. by rewrite Hwrite. }
    rewrite (replay_cons_fail _ rest _ e d1 Hcall). cbn [failure made answers final].
    split_and!; reflexivity.
Qed.

(** A replay stops where the transport first raises: without a failure
    every call was made, with one the calls made are a prefix of the list
    that ends with the call that raised. *)
Lemma replay_made cs d :
  match failure (replay cs d) with
  | None => made (replay cs d) = cs
  | Some e =>
      exists n, (n < length cs)%nat /\ made (replay cs d) = take (S n) cs /\
        exists c d1, cs !! n = Some c /\ d1 = final (replay (take n cs) d) /\
          failure (replay (take n cs) d) = None /\
          (transport_call c d1).1 = Raise e
  end.
Proof.
  revert d. induction cs as [| c cs IH]; intros d; [done|].
  destruct (transport_call c d) as [[vs | e] d1] eqn:Hc.
  - destruct (replay_cons_ok c cs d vs d1 Hc) as (Hm & _ & Hf & _).
    rewrite Hf, Hm. specialize (IH d1). destruct (failure (replay cs d1)) as [e |].
    + destruct IH as (n & Hn & Hmade & c' & d2 & Hl & Hd2 & Hnone & Hraise).
      exists (S n). split; [simpl; lia|]. split; [by rewrite Hmade|].
      exists c', d2. rewrite firstn_cons.
      destruct (replay_cons_ok c (take n cs) d vs d1 Hc) as (_ & _ & Hf' & Hfin').
      rewrite Hf', Hfin'. by split_and!.
    + by rewrite IH.
  - rewrite (replay_cons_fail c cs d e d1 Hc). cbn [failure made].
    exists 0%nat. split; [simpl; lia|]. split; [reflexivity|].
    exists c, d. cbn [take]. split_and!; [done | done | done |]. by rewrite Hc.
Qed.

(** Reads that all return leave as many numbers as there were reads. *)
Lemma replay_reads_answers cs d :
  Forall (fun c => exists a n, c = ReadRegister a n) cs ->
  failure (replay cs d) = None -> length (answers (replay cs d)) = length cs.
Proof.
  intros Hcs. revert d. induction Hcs as [| c cs (a & n & ->) _ IH]; intros d; [done|].
  destruct (transport_call (ReadRegister a n) d) as [[vs | e] d1] eqn:Hc.
  - destruct (replay_cons_ok _ cs d vs d1 Hc) as (_ & Ha & Hf & _).
    rewrite Hf, Ha. intros Hnone. rewrite length_app, (IH d1 Hnone).
    simpl in Hc. destruct (tr_read_register a n d) as [[v | e] d2]; [|done].
    by injection Hc as <- _.
  - rewrite (replay_cons_fail _ cs d e d1 Hc). done.
Qed.


(** Without a failure, resp. with one, what a replayed method has done. *)
Lemma replays_completed {A} (m : M dev A) self cs O L :
  replays m self cs O L -> failure (replay cs (device self)) = None ->
  result m self = O (answers (replay cs (device self))) /\
  calls_made m self = cs /\
  printed m self = L (answers (replay cs (device self))) /\
  device (m self).2 = final (replay cs (device self)).
Proof.
  intros (Hc & Hd & Hf) Hnone. pose proof (replay_made cs (device self)) as Hmade.
  rewrite Hnone in Hf, Hmade. destruct Hf as [Hres Hout]. rewrite Hmade in Hc.
  split; [exact Hres|]. split; [by apply calls_made_intro|]. split; [|exact Hd].
  unfold printed. rewrite Hout. apply drop_app_length.
Qed.

Lemma replays_failed {A} (m : M dev A) self cs O L e :
  replays m self cs O L -> failure (replay cs (device self)) = Some e ->
  result m self = Raise e /\
  calls_made m self = made (replay cs (device self)) /\
  printed m self = [] /\
  device (m self).2 = final (replay cs (device self)) /\
  exists n, (n < length cs)%nat /\ made (replay cs (device self)) = take (S n) cs.
Proof.
  intros (Hc & Hd & Hf) Hsome. pose proof (replay_made cs (device self)) as Hmade.
  rewrite Hsome in Hf, Hmade. destruct Hf as [Hres Hout].
  split; [exact Hres|]. split; [by apply calls_made_intro|]. split; [|split; [exact Hd|]].
  - unfold printed. rewrite Hout. apply drop_all.
  - destruct Hmade as (n & Hn & Hm & _). by exists n.
Qed.

Lemma pattern_reads_are_reads pattern :
  Forall (fun c => exists a n, c = ReadRegister a n) (pattern_reads pattern).
Proof. unfold pattern_reads. repeat constructor; by repeat eexists. Qed.

(** Nineteen numbers make a listing. *)
Lemma listing_of_19 (vs : list number) :
  length vs = 19%nat ->
  exists sp0 sp1 sp2 sp3 sp4 sp5 sp6 sp7 ti0 ti1 ti2 ti3 ti4 ti5 ti6 ti7
         actual_step additional_cycles link_pattern,
    vs = [sp0; sp1; sp2; sp3; sp4; sp5; sp6; sp7; ti0; ti1; ti2; ti3; ti4; ti5; ti6; ti7;
          actual_step; additional_cycles; link_pattern] /\
    listing_of vs
    = pattern_listing sp0 sp1 sp2 sp3 sp4 sp5 sp6 sp7 ti0 ti1 ti2 ti3 ti4 ti5 ti6 ti7
        actual_step additional_cycles link_pattern.
Proof.
  intros Hlen.
  do 19 (destruct vs as [| ? vs]; [discriminate Hlen|]).
  destruct vs; [|discriminate Hlen].
  repeat eexists.
Qed.

Lemma set_all_pattern_variables_replays pattern
    sp0 ti0 sp1 ti1 sp2 ti2 sp3 ti3 sp4 ti4 sp5 ti5 sp6 ti6 sp7 ti7
    actual_step additional_cycles link_pattern self :
  -8 <= pattern <= 7 ->
  replays
    (set_all_pattern_variables pattern sp0 ti0 sp1 ti1 sp2 ti2 sp3 ti3 sp4 ti4
       sp5 ti5 sp6 ti6 sp7 ti7 actual_step additional_cycles link_pattern)
    self
    (pattern_writes (pattern mod 8) sp0 ti0 sp1 ti1 sp2 ti2 sp3 ti3 sp4 ti4
       sp5 ti5 sp6 ti6 sp7 ti7 actual_step additional_cycles link_pattern)
    (fun _ => Return VNone) (fun _ => []).
Proof.
  intros Hp. unfold set_all_pattern_variables.
  rewrite !setpoint_address_wrapped, !time_address_wrapped by lia.
  unfold actual_step_addresses, additional_cycles_addresses, link_pattern_addresses.
  rewrite (py_index_range_wrapped 4160), (py_index_range_wrapped 4176),
    (py_index_range_wrapped 4192) by done.
  do 19 apply replays_lift.
  unfold pattern_writes. do 19 (apply replays_write; intros ?).
  unfold replays. cbn [replay made answers failure final ret fst snd].
  split_and!; [by rewrite app_nil_r | reflexivity | reflexivity | by rewrite app_nil_r].
Qed.

(** A run of [print] statements adds its lines to what was printed and
    changes nothing else. *)
Lemma prints_ret {A} (a : A) self :
  ret a self
  = (Return a, Instrument (setpoint_max self) (time_max self) (device self) (calls self)
                 (stdout self ++ [])).
Proof. rewrite app_nil_r. by destruct self. Qed.

Lemma prints_bind {B} line (k : unit -> M dev B) self o ls :
  (forall self1,
     k tt self1
     = (o, Instrument (setpoint_max self1) (time_max self1) (device self1) (calls self1)
             (stdout self1 ++ ls))) ->
  bind (print line) k self
  = (o, Instrument (setpoint_max self) (time_max self) (device self) (calls self)
          (stdout self ++ line :: ls)).
Proof.
  intros Hk. unfold bind, print. rewrite Hk. cbn [setpoint_max time_max device calls stdout].
  by rewrite <- app_assoc.
Qed.

Lemma get_all_pattern_variables_replays pattern self :
  0 <= pattern <= 7 ->
  replays (get_all_pattern_variables pattern) self (pattern_reads pattern)
    (fun _ => Return VNone) listing_of.
Proof.
  intros Hp. unfold get_all_pattern_variables.
  replace ((0 <=? pattern) && (pattern <=? 7)) with true by lia.
  rewrite !setpoint_address, !time_address, actual_step_address,
    additional_cycles_address, link_pattern_address by lia.
  do 19 apply replays_lift.
  unfold pattern_reads. do 19 (apply replays_read; intros ? ?).
  unfold replays. cbn [replay made answers failure final].
  erewrite (prints_bind _ _ _ (Return VNone)); cycle 1.
  { intros. do 10 (erewrite (prints_bind _ _ _ (Return VNone)); [reflexivity|intros]).
    apply prints_ret. }
  cbn [fst snd calls device stdout listing_of].
  rewrite app_nil_r. split_and!; reflexivity.
Qed.

End Replay.

(** * Invalid pattern and step indices *)



(** * The actual step *)

(** C4, as the code has it.  [get_pattern_actual_step] with a pattern index
    outside 0..7 does not fail: it hands back the string "Not a valid
    pattern number, must be 0-7".  So does [set_pattern_actual_step]; with a
    pattern in 0..7 and a value outside 0..7 it hands back "Not a valid step
    number, must be 0-7".  No transport call is made in any of these cases. *)
Theorem actual_step_invalid_message {dev : Type} `{!Transport dev} (self : instrument dev) :
  (forall pattern, ~ 0 <= pattern <= 7 ->
     without_io (get_pattern_actual_step pattern) self
       (Return (VStr "Not a valid pattern number, must be 0-7"))) /\
  (forall pattern value, ~ 0 <= pattern <= 7 ->
     without_io (set_pattern_actual_step pattern value) self
       (Return (VStr "Not a valid pattern number, must be 0-7"))) /\
  (forall pattern value, 0 <= pattern <= 7 -> ~ 0 <= value <= 7 ->
     without_io (set_pattern_actual_step pattern value) self
       (Return (VStr "Not a valid step number, must be 0-7"))).
Proof.
  split_and!; intros; apply without_io_intro.
  - by apply get_pattern_actual_step_bad_pattern.
  - by apply set_pattern_actual_step_bad_pattern.
  - by apply set_pattern_actual_step_bad_value.
Qed.

(** C4 does not hold as stated: pattern 8, and value 8, are answered with
    a string and not with an error. *)
Lemma actual_step_counterexample :
  result (get_pattern_actual_step 8) (init blank)
    = Return (VStr "Not a valid pattern number, must be 0-7") /\
  result (set_pattern_actual_step (-1) 3) (init blank)
    = Return (VStr "Not a valid pattern number, must be 0-7") /\
  result (set_pattern_actual_step 0 8) (init blank)
    = Return (VStr "Not a valid step number, must be 0-7").
Proof. split_and!; reflexivity. Qed.

(** * Additional cycles *)

(** C9, as the code has it.  For a pattern in 0..7,
    [set_pattern_additional_cycles] with a value in 0..99 makes one
    transport call, the write of the value at 4176 + pattern with 0
    decimals, and returns [None] when the write does not fail; with a value
    above 99 it makes no transport call and hands back the string "Not a
    valid number of additional cycles, must be 0-99" instead of failing.
    (Nothing is said here of negative values.) *)
Theorem additional_cycles_range {dev : Type} `{!Transport dev}
    (self : instrument dev) (pattern value : Z) :
  0 <= pattern <= 7 ->
  (0 <= value <= 99 ->
     calls_made (set_pattern_additional_cycles pattern value) self
       = [WriteRegister (4176 + pattern) (PyInt value) 0] /\
     (writes_ok -> result (set_pattern_additional_cycles pattern value) self = Return VNone)) /\
  (99 < value ->
     without_io (set_pattern_additional_cycles pattern value) self
       (Return (VStr "Not a valid number of additional cycles, must be 0-99"))).
Proof.
  intros Hp. split.
  - intros Hv. split.
    + apply calls_made_intro. rewrite set_pattern_additional_cycles_valid by done.
      apply bind_calls_quiet; [apply write_register_calls | done].
    + intros Hw. unfold result. rewrite set_pattern_additional_cycles_valid by done.
      pose proof (write_register_result (4176 + pattern) (PyInt value) 0 self Hw) as Hres.
      unfold result in Hres. unfold bind.
      destruct (write_register (4176 + pattern) (PyInt value) 0 self) as [r self'].
      simpl in *. by subst r.
  - intros Hv. apply without_io_intro. by apply set_pattern_additional_cycles_above.
Qed.

Lemma additional_cycles_range_witness :
  (0 <= 42 <= 99 ->
     calls_made (set_pattern_additional_cycles 5 42) (init blank)
       = [WriteRegister (4176 + 5) (PyInt 42) 0] /\
     (writes_ok -> result (set_pattern_additional_cycles 5 42) (init blank) = Return VNone)) /\
  (99 < 42 ->
     without_io (set_pattern_additional_cycles 5 42) (init blank)
       (Return (VStr "Not a valid number of additional cycles, must be 0-99"))).
Proof. apply (additional_cycles_range (init blank) 5 42); lia. Defined.

(** C9 does not hold as stated: 100 is answered with a string and not with
    an error, and -1 is not rejected at all: [None] comes back, as after a
    write, though none was made. *)
Lemma additional_cycles_counterexample :
  result (set_pattern_additional_cycles 0 100) (init blank)
    = Return (VStr "Not a valid number of additional cycles, must be 0-99") /\
  result (set_pattern_additional_cycles 0 (-1)) (init blank) = Return VNone /\
  calls_made (set_pattern_additional_cycles 0 (-1)) (init blank) = [].
Proof. split_and!; reflexivity. Qed.

(** * Reading and writing a whole pattern *)




(** C5 fails on the code: over a transport whose writes do not fail,
    [set_all_pattern_variables] checks nothing.  For every pattern in -8..7
    and whatever the 19 values, it writes them all, to the registers of
    pattern [pattern mod 8], and returns [None]. *)
Theorem set_all_pattern_variables_unchecked {dev : Type} `{!Transport dev}
    (self : instrument dev) (pattern : Z)
    (sp0 ti0 sp1 ti1 sp2 ti2 sp3 ti3 sp4 ti4 sp5 ti5 sp6 ti6 sp7 ti7 : number)
    (actual_step additional_cycles link_pattern : number) :
  writes_ok -> -8 <= pattern <= 7 ->
  let m := set_all_pattern_variables pattern sp0 ti0 sp1 ti1 sp2 ti2 sp3 ti3 sp4 ti4
             sp5 ti5 sp6 ti6 sp7 ti7 actual_step additional_cycles link_pattern in
  result m self = Return VNone /\
  calls_made m self
  = pattern_writes (pattern mod 8) sp0 ti0 sp1 ti1 sp2 ti2 sp3 ti3 sp4 ti4
      sp5 ti5 sp6 ti6 sp7 ti7 actual_step additional_cycles link_pattern.
Proof.
  intros Hw Hp m.
  pose proof (traces_elim _ _ self
    (set_all_pattern_variables_writes pattern sp0 ti0 sp1 ti1 sp2 ti2 sp3 ti3 sp4 ti4
       sp5 ti5 sp6 ti6 sp7 ti7 actual_step additional_cycles link_pattern Hw Hp))
    as (Hres & _ & Hcalls).
  by split.
Qed.

Lemma set_all_pattern_variables_unchecked_witness :
  let m := set_all_pattern_variables 0
             (PyInt 1200) (PyInt 901) (PyInt (-5)) (PyInt 0) (PyInt 0) (PyInt 0)
             (PyInt 0) (PyInt 0) (PyInt 0) (PyInt 0) (PyInt 0) (PyInt 0)
             (PyInt 0) (PyInt 0) (PyInt 0) (PyInt 0) (PyInt 8) (PyInt 100) (PyInt 9) in
  result m (init blank) = Return VNone /\
  calls_made m (init blank)
  = pattern_writes (0 mod 8)
      (PyInt 1200) (PyInt 901) (PyInt (-5)) (PyInt 0) (PyInt 0) (PyInt 0)
      (PyInt 0) (PyInt 0) (PyInt 0) (PyInt 0) (PyInt 0) (PyInt 0)
      (PyInt 0) (PyInt 0) (PyInt 0) (PyInt 0) (PyInt 8) (PyInt 100) (PyInt 9).
Proof.
  apply (set_all_pattern_variables_unchecked (init blank) 0
           (PyInt 1200) (PyInt 901) (PyInt (-5)) (PyInt 0) (PyInt 0) (PyInt 0)
           (PyInt 0) (PyInt 0) (PyInt 0) (PyInt 0) (PyInt 0) (PyInt 0)
           (PyInt 0) (PyInt 0) (PyInt 0) (PyInt 0) (PyInt 8) (PyInt 100) (PyInt 9)
           mock_writes_ok); lia.
Defined.

(** * The mock at work *)

(** On the mock, writing one step leaves every other register as it was. *)
Lemma set_pattern_step_setpoint_frame (self : instrument mock) pattern step value a :
  0 <= pattern <= 7 -> 0 <= step <= 7 ->
  num_between (PyInt 0) value (setpoint_max self) ->
  a <> 8192 + 8 * pattern + step ->
  registers (device (set_pattern_step_setpoint pattern step value self).2) !! a
  = registers (device self) !! a.
Proof.
  intros Hp Hs Hv Ha. rewrite set_pattern_step_setpoint_valid by done.
  simpl. by rewrite lookup_insert_ne.
Qed.

(** What was written to a step is what is read back. *)
Lemma set_get_pattern_step_setpoint (self : instrument mock) pattern step value :
  0 <= pattern <= 7 -> 0 <= step <= 7 ->
  num_between (PyInt 0) value (setpoint_max self) ->
  result (set_pattern_step_setpoint pattern step value ;;
          get_pattern_step_setpoint pattern step) self
  = Return value.
Proof.
  intros Hp Hs Hv. unfold result, bind.
  rewrite set_pattern_step_setpoint_valid by done. simpl.
  rewrite get_pattern_step_setpoint_valid by done. simpl.
  by rewrite lookup_insert_eq.
Qed.

(** On the mock, the listing shows what the 19 registers of the pattern
    hold. *)
Lemma get_all_pattern_variables_mock_listing (self : instrument mock) pattern :
  0 <= pattern <= 7 ->
  printed (get_all_pattern_variables pattern) self
  = pattern_listing
      (stored self (8192 + 8 * pattern + 0)) (stored self (8192 + 8 * pattern + 1))
      (stored self (8192 + 8 * pattern + 2)) (stored self (8192 + 8 * pattern + 3))
      (stored self (8192 + 8 * pattern + 4)) (stored self (8192 + 8 * pattern + 5))
      (stored self (8192 + 8 * pattern + 6)) (stored self (8192 + 8 * pattern + 7))
      (stored self (8320 + 8 * pattern + 0)) (stored self (8320 + 8 * pattern + 1))
      (stored self (8320 + 8 * pattern + 2)) (stored self (8320 + 8 * pattern + 3))
      (stored self (8320 + 8 * pattern + 4)) (stored self (8320 + 8 * pattern + 5))
      (stored self (8320 + 8 * pattern + 6)) (stored self (8320 + 8 * pattern + 7))
      (stored self (4160 + pattern)) (stored self (4176 + pattern))
      (stored self (4192 + pattern)).
Proof.
  intros Hp. unfold printed, get_all_pattern_variables.
  replace ((0 <=? pattern) && (pattern <=? 7)) with true by lia.
  rewrite !setpoint_address, !time_address, actual_step_address,
    additional_cycles_address, link_pattern_address by lia.
  cbn [bind lift read_register print ret fst snd tr_read_register mock_transport
       log device stdout calls setpoint_max time_max].
  rewrite <- !app_assoc, drop_app_length. reflexivity.
Qed.

(** The scenario of the testable properties, with the default limits:
    1200 is refused, 500.5 is written and read back. *)
Example scenario_setpoint_refused :
  set_pattern_step_setpoint 0 0 (PyFloat (1200 # 1)) (init blank)
  = (Raise (InvalidArgument "setpoint value"), init blank).
Proof. reflexivity. Qed.

Example scenario_setpoint_round_trip :
  result (set_pattern_step_setpoint 0 0 (PyFloat (1001 # 2)) ;;
          get_pattern_step_setpoint 0 0) (init blank)
  = Return (PyFloat (1001 # 2)).
Proof. vm_compute. reflexivity. Qed.

(** A device that answers the read of the control mode with 9. *)
Example control_mode_unmapped :
  result get_control_mode
    (Instrument SETPOINT_MAX TIME_MAX (Mock (<[4101 := PyInt 9]> ∅) ∅) [] [])
  = Raise (ParseError (PyInt 9)).
Proof. vm_compute. reflexivity. Qed.

(** A float code that equals a key finds it, as in a Python dict. *)
Example control_mode_float_code :
  result get_control_mode
    (Instrument SETPOINT_MAX TIME_MAX (Mock (<[4101 := PyFloat (4 # 2)]> ∅) ∅) [] [])
  = Return "Manual Tuning".
Proof. vm_compute. reflexivity. Qed.

(** The listing of a pattern: setpoints are printed with ["%d"], so their
    decimals are cut off. *)
Example listing_format :
  printed (get_all_pattern_variables 0)
    (Instrument SETPOINT_MAX TIME_MAX
       (Mock (<[8192 := PyFloat (1001 # 2)]> (<[8320 := PyInt 30]>
               (<[4160 := PyInt 7]> (<[8193 := PyFloat (-7 # 2)]> ∅)))) ∅) [] [])
  = ["SP0: 500  Time0: 30 "; "SP1: -3   Time1: 0"; "SP2: 0    Time2: 0";
     "SP3: 0    Time3: 0"; "SP4: 0    Time4: 0"; "SP5: 0    Time5: 0";
     "SP6: 0    Time6: 0"; "SP7: 0    Time7: 0"; "Actual step:      7";
     "Add'l cycles:     0"; "Linked pattern:   0"].
Proof. vm_compute. reflexivity. Qed.

(** * Further properties of the driver *)

(** ** Whole patterns over a transport that may fail *)

(** X1. Whatever the transport does, for a pattern in -8..7
    [set_all_pattern_variables] does to the link exactly what making the 19
    writes of the pattern in order does, up to and including the first
    write the transport raises on: its transport calls are those, the link
    ends in the same state, nothing is printed, and the outcome is the
    exception of that write, or [None] when no write raised (then all 19
    were made). *)
Theorem set_all_pattern_variables_partial {dev : Type} `{!Transport dev}
    (self : instrument dev) (pattern : Z)
    (sp0 ti0 sp1 ti1 sp2 ti2 sp3 ti3 sp4 ti4 sp5 ti5 sp6 ti6 sp7 ti7 : number)
    (actual_step additional_cycles link_pattern : number) :
  -8 <= pattern <= 7 ->
  let m := set_all_pattern_variables pattern sp0 ti0 sp1 ti1 sp2 ti2 sp3 ti3 sp4 ti4
             sp5 ti5 sp6 ti6 sp7 ti7 actual_step additional_cycles link_pattern in
  let ws := pattern_writes (pattern mod 8) sp0 ti0 sp1 ti1 sp2 ti2 sp3 ti3 sp4 ti4
              sp5 ti5 sp6 ti6 sp7 ti7 actual_step additional_cycles link_pattern in
  let r := replay ws (device self) in
  calls_made m self = made r /\
  device (m self).2 = final r /\
  printed m self = [] /\
  match failure r with
  | None => result m self = Return VNone /\ made r = ws
  | Some e =>
      result m self = Raise e /\
      exists n, (n < 19)%nat /\ made r = take (S n) ws
  end.
Proof.
  intros Hp m ws r. subst m ws r.
  pose proof (set_all_pattern_variables_replays pattern sp0 ti0 sp1 ti1 sp2 ti2 sp3 ti3
                sp4 ti4 sp5 ti5 sp6 ti6 sp7 ti7 actual_step additional_cycles link_pattern
                self Hp) as Hrep.
  match goal with
  | |- context [failure (replay ?ws ?d)] =>
      destruct (failure (replay ws d)) as [e |] eqn:Hfail
  end.
  - destruct (replays_failed _ _ _ _ _ e Hrep Hfail)
      as (Hres & Hcalls & Hout & Hd & n & Hn & Hmade).
    split; [exact Hcalls|]. split; [exact Hd|]. split; [exact Hout|].
    split; [exact Hres|]. exists n. split; [exact Hn | exact Hmade].
  - destruct (replays_completed _ _ _ _ _ Hrep Hfail) as (Hres & Hcalls & Hout & Hd).
    match type of Hfail with
    | failure (replay ?ws _) = _ => pose proof (replay_made ws (device self)) as Hmade
    end.
    rewrite Hfail in Hmade.
    split; [by rewrite Hmade|]. split; [exact Hd|]. split; [exact Hout|].
    split; [exact Hres | exact Hmade].
Qed.

Lemma set_all_pattern_variables_partial_witness :
  let m := @set_all_pattern_variables nat dying 2
             (PyInt 1) (PyInt 2) (PyInt 3) (PyInt 4) (PyInt 5) (PyInt 6) (PyInt 7) (PyInt 8)
             (PyInt 9) (PyInt 10) (PyInt 11) (PyInt 12) (PyInt 13) (PyInt 14) (PyInt 15)
             (PyInt 16) (PyInt 17) (PyInt 18) (PyInt 19) in
  let ws := pattern_writes (2 mod 8)
              (PyInt 1) (PyInt 2) (PyInt 3) (PyInt 4) (PyInt 5) (PyInt 6) (PyInt 7) (PyInt 8)
              (PyInt 9) (PyInt 10) (PyInt 11) (PyInt 12) (PyInt 13) (PyInt 14) (PyInt 15)
              (PyInt 16) (PyInt 17) (PyInt 18) (PyInt 19) in
  let r := @replay nat dying ws (device (init 3%nat)) in
  calls_made m (init 3%nat) = made r /\
  device (m (init 3%nat)).2 = final r /\
  printed m (init 3%nat) = [] /\
  match failure r with
  | None => result m (init 3%nat) = Return VNone /\ made r = ws
  | Some e =>
      result m (init 3%nat) = Raise e /\
      exists n, (n < 19)%nat /\ made r = take (S n) ws
  end.
Proof.
  apply (@set_all_pattern_variables_partial nat dying (init 3%nat) 2
           (PyInt 1) (PyInt 2) (PyInt 3) (PyInt 4) (PyInt 5) (PyInt 6) (PyInt 7) (PyInt 8)
           (PyInt 9) (PyInt 10) (PyInt 11) (PyInt 12) (PyInt 13) (PyInt 14) (PyInt 15)
           (PyInt 16) (PyInt 17) (PyInt 18) (PyInt 19)).
  lia.
Defined.

(** Over a link that answers three calls, the fourth write fails: three
    setpoints of the pattern are changed, nothing else. *)
Example set_all_pattern_variables_link_dies :
  let m := @set_all_pattern_variables nat dying 2
             (PyInt 1) (PyInt 2) (PyInt 3) (PyInt 4) (PyInt 5) (PyInt 6) (PyInt 7) (PyInt 8)
             (PyInt 9) (PyInt 10) (PyInt 11) (PyInt 12) (PyInt 13) (PyInt 14) (PyInt 15)
             (PyInt 16) (PyInt 17) (PyInt 18) (PyInt 19) in
  result m (init 3%nat) = Raise (TransportFailure "no answer") /\
  calls_made m (init 3%nat)
  = [WriteRegister 8208 (PyInt 1) 1; WriteRegister 8209 (PyInt 3) 1;
     WriteRegister 8210 (PyInt 5) 1; WriteRegister 8211 (PyInt 7) 1].
Proof. split; vm_compute; reflexivity. Qed.

(** X2. Whatever the transport does, for a pattern in 0..7
    [get_all_pattern_variables] does to the link exactly what making the 19
    reads of the pattern in order does, up to and including the first read
    the transport raises on: its transport calls are those and the link
    ends in the same state.  When no read raised, all 19 were made, the
    listing printed is that of the 19 numbers the reads returned, and [None]
    is returned; otherwise the outcome is the exception of the failing read
    and nothing at all is printed. *)
Theorem get_all_pattern_variables_partial {dev : Type} `{!Transport dev}
    (self : instrument dev) (pattern : Z) :
  0 <= pattern <= 7 ->
  let m := get_all_pattern_variables pattern in
  let r := replay (pattern_reads pattern) (device self) in
  calls_made m self = made r /\
  device (m self).2 = final r /\
  match failure r with
  | None =>
      result m self = Return VNone /\ made r = pattern_reads pattern /\
      exists sp0 sp1 sp2 sp3 sp4 sp5 sp6 sp7 ti0 ti1 ti2 ti3 ti4 ti5 ti6 ti7
             actual_step additional_cycles link_pattern,
        answers r
        = [sp0; sp1; sp2; sp3; sp4; sp5; sp6; sp7; ti0; ti1; ti2; ti3; ti4; ti5; ti6; ti7;
           actual_step; additional_cycles; link_pattern] /\
        printed m self
        = pattern_listing sp0 sp1 sp2 sp3 sp4 sp5 sp6 sp7 ti0 ti1 ti2 ti3 ti4 ti5 ti6 ti7
            actual_step additional_cycles link_pattern
  | Some e =>
      result m self = Raise e /\ printed m self = [] /\
      exists n, (n < 19)%nat /\ made r = take (S n) (pattern_reads pattern)
  end.
Proof.
  intros Hp m r. subst m r.
  pose proof (get_all_pattern_variables_replays pattern self Hp) as Hrep.
  destruct (failure (replay (pattern_reads pattern) (device self))) as [e |] eqn:Hfail.
  - destruct (replays_failed _ _ _ _ _ e Hrep Hfail)
      as (Hres & Hcalls & Hout & Hd & n & Hn & Hmade).
    split; [exact Hcalls|]. split; [exact Hd|]. split; [exact Hres|].
    split; [exact Hout|]. exists n. split; [exact Hn | exact Hmade].
  - destruct (replays_completed _ _ _ _ _ Hrep Hfail) as (Hres & Hcalls & Hout & Hd).
    pose proof (replay_made (pattern_reads pattern) (device self)) as Hmade.
    rewrite Hfail in Hmade.
    pose proof (replay_reads_answers (pattern_reads pattern) (device self)
                  (pattern_reads_are_reads pattern) Hfail) as Hlen.
    destruct (listing_of_19 _ Hlen)
      as (sp0 & sp1 & sp2 & sp3 & sp4 & sp5 & sp6 & sp7 & ti0 & ti1 & ti2 & ti3 & ti4 &
          ti5 & ti6 & ti7 & actual_step & additional_cycles & link_pattern & Hvs & Hlist).
    split; [by rewrite Hmade|]. split; [exact Hd|]. split; [exact Hres|].
    split; [exact Hmade|].
    exists sp0, sp1, sp2, sp3, sp4, sp5, sp6, sp7, ti0, ti1, ti2, ti3, ti4, ti5, ti6, ti7,
      actual_step, additional_cycles, link_pattern.
    split; [exact Hvs|]. rewrite Hout. exact Hlist.
Qed.

Lemma get_all_pattern_variables_partial_witness :
  let m := @get_all_pattern_variables nat dying 5 in
  let r := @replay nat dying (pattern_reads 5) (device (init 18%nat)) in
  calls_made m (init 18%nat) = made r /\
  device (m (init 18%nat)).2 = final r /\
  match failure r with
  | None =>
      result m (init 18%nat) = Return VNone /\ made r = pattern_reads 5 /\
      exists sp0 sp1 sp2 sp3 sp4 sp5 sp6 sp7 ti0 ti1 ti2 ti3 ti4 ti5 ti6 ti7
             actual_step additional_cycles link_pattern,
        answers r
        = [sp0; sp1; sp2; sp3; sp4; sp5; sp6; sp7; ti0; ti1; ti2; ti3; ti4; ti5; ti6; ti7;
           actual_step; additional_cycles; link_pattern] /\
        printed m (init 18%nat)
        = pattern_listing sp0 sp1 sp2 sp3 sp4 sp5 sp6 sp7 ti0 ti1 ti2 ti3 ti4 ti5 ti6 ti7
            actual_step additional_cycles link_pattern
  | Some e =>
      result m (init 18%nat) = Raise e /\ printed m (init 18%nat) = [] /\
      exists n, (n < 19)%nat /\ made r = take (S n) (pattern_reads 5)
  end.
Proof. apply (@get_all_pattern_variables_partial nat dying (init 18%nat) 5). lia. Defined.

(** Over a link that answers 18 calls the last read fails: 19 reads were
    made and not one line is printed. *)
Example get_all_pattern_variables_link_dies :
  result (@get_all_pattern_variables nat dying 5) (init 18%nat)
    = Raise (TransportFailure "no answer") /\
  calls_made (@get_all_pattern_variables nat dying 5) (init 18%nat) = pattern_reads 5 /\
  printed (@get_all_pattern_variables nat dying 5) (init 18%nat) = [].
Proof. split_and!; vm_compute; reflexivity. Qed.

(** ** Single registers *)

Section Single.
Context {dev : Type} `{!Transport dev}.
Implicit Types (self : instrument dev) (pattern value : Z).

(** A write followed by [return None]. *)
Lemma write_then_none a v d self :
  calls_made (write_register a v d ;; ret VNone) self = [WriteRegister a v d] /\
  result (write_register a v d ;; ret VNone) self
  = match result (write_register a v d) self with
    | Return _ => Return VNone
    | Raise e => Raise e
    end.
Proof.
  split.
  - apply calls_made_intro, bind_calls_quiet; [apply write_register_calls | done].
  - unfold result, bind. by destruct (write_register a v d self) as [[[] | e] self'].
Qed.

(** A read whose value is handed back. *)
Lemma read_then_value a d self :
  calls_made (v <- read_register a d ;; ret (VNum v)) self = [ReadRegister a d] /\
  result (v <- read_register a d ;; ret (VNum v)) self
  = match result (read_register a d) self with
    | Return v => Return (VNum v)
    | Raise e => Raise e
    end.
Proof.
  split.
  - apply calls_made_intro, bind_calls_quiet; [apply read_register_calls | done].
  - unfold result, bind. by destruct (read_register a d self) as [[v | e] self'].
Qed.

Lemma set_pattern_actual_step_valid pattern value self :
  0 <= pattern <= 7 -> 0 <= value <= 7 ->
  set_pattern_actual_step pattern value self
  = (write_register (4160 + pattern) (PyInt value) 0 ;; ret VNone) self.
Proof.
  intros Hp Hv. unfold set_pattern_actual_step.
  replace ((0 <=? pattern) && (pattern <=? 7)) with true by lia.
  replace ((0 <=? value) && (value <=? 7)) with true by lia.
  simpl. rewrite actual_step_address by done. reflexivity.
Qed.

Lemma set_pattern_link_topattern_valid pattern value self :
  0 <= pattern <= 7 -> 0 <= value <= 8 ->
  set_pattern_link_topattern pattern value self
  = (write_register (4192 + pattern) (PyInt value) 0 ;; ret VNone) self.
Proof.
  intros Hp Hv. unfold set_pattern_link_topattern.
  replace ((0 <=? pattern) && (pattern <=? 7)) with true by lia.
  replace ((0 <=? value) && (value <=? 8)) with true by lia.
  simpl. rewrite link_pattern_address by done. reflexivity.
Qed.

Lemma set_pattern_link_topattern_bad_value pattern value self :
  0 <= pattern <= 7 -> ~ 0 <= value <= 8 ->
  set_pattern_link_topattern pattern value self
  = (Return (VStr "Not a valid value, must be pattern 0-7 or 8 for OFF"), self).
Proof.
  intros Hp Hv. unfold set_pattern_link_topattern. rewrite !py_in_range.
  replace ((0 <=? pattern) && (pattern <=? 7)) with true by lia.
  replace ((0 <=? pattern) && (pattern <? 8)) with true by lia.
  replace ((0 <=? value) && (value <=? 8)) with false by lia.
  replace ((0 <=? value) && (value <? 9)) with false by lia. reflexivity.
Qed.

Lemma get_pattern_actual_step_valid pattern self :
  0 <= pattern <= 7 ->
  get_pattern_actual_step pattern self
  = (v <- read_register (4160 + pattern) 0 ;; ret (VNum v)) self.
Proof.
  intros Hp. unfold get_pattern_actual_step.
  replace ((0 <=? pattern) && (pattern <=? 7)) with true by lia.
  rewrite actual_step_address by done. reflexivity.
Qed.

Lemma get_pattern_additional_cycles_valid pattern self :
  0 <= pattern <= 7 ->
  get_pattern_additional_cycles pattern self
  = (v <- read_register (4176 + pattern) 0 ;; ret (VNum v)) self.
Proof.
  intros Hp. unfold get_pattern_additional_cycles.
  replace ((0 <=? pattern) && (pattern <=? 7)) with true by lia.
  rewrite additional_cycles_address by done. reflexivity.
Qed.

Lemma get_pattern_link_topattern_valid pattern self :
  0 <= pattern <= 7 ->
  get_pattern_link_topattern pattern self
  = (v <- read_register (4192 + pattern) 0 ;; ret (VNum v)) self.
Proof.
  intros Hp. unfold get_pattern_link_topattern.
  replace ((0 <=? pattern) && (pattern <=? 7)) with true by lia.
  rewrite link_pattern_address by done. reflexivity.
Qed.

Lemma set_setpoint_valid (value : number) self :
  num_between (PyInt 0) value (setpoint_max self) ->
  set_setpoint value self = write_register 4097 value 1 self.
Proof.
  intros Hv. unfold set_setpoint, _checkSetpointValue.
  by rewrite _checkNumerical_ok.
Qed.

Lemma set_start_pattern_no_valid value self :
  0 <= value <= 7 ->
  set_start_pattern_no value self = write_register 4144 (PyInt value) 0 self.
Proof.
  intros Hv. unfold set_start_pattern_no, _checkPatternNumber.
  by rewrite _checkInt_ok.
Qed.

Lemma set_control_mode_valid value self :
  0 <= value <= 3 ->
  set_control_mode value self = write_register 4101 (PyInt value) 0 self.
Proof. intros Hv. unfold set_control_mode. by rewrite _checkInt_ok. Qed.

End Single.

(** X3. [set_setpoint] checks the value against the [setpoint_max] of the
    instrument before anything else: a value in 0..setpoint_max is handed
    to the transport in one write of register 4097 with 1 decimal, whose
    outcome is the outcome of the call; any other value fails with
    [InvalidArgument], the instrument and the device being left as they
    were. *)
Theorem set_setpoint_checked {dev : Type} `{!Transport dev}
    (self : instrument dev) (value : number) :
  (num_between (PyInt 0) value (setpoint_max self) ->
     set_setpoint value self = write_register 4097 value 1 self /\
     calls_made (set_setpoint value) self = [WriteRegister 4097 value 1]) /\
  (~ num_between (PyInt 0) value (setpoint_max self) ->
     set_setpoint value self = (Raise (InvalidArgument "setpoint value"), self) /\
     calls_made (set_setpoint value) self = []).
Proof.
  split; intros Hv.
  - split; [by apply set_setpoint_valid|].
    apply calls_made_intro. rewrite set_setpoint_valid by done. apply write_register_calls.
  - assert (set_setpoint value self = (Raise (InvalidArgument "setpoint value"), self)) as E.
    { unfold set_setpoint, _checkSetpointValue. by rewrite _checkNumerical_bad. }
    split; [done|]. by apply calls_made_unchanged in E as [? _].
Qed.

(** X4. [set_start_pattern_no] accepts exactly the integers 0..7: such a
    value goes to the transport in one write of register 4144 with 0
    decimals; any other integer fails with [InvalidArgument] before any
    transport call. *)
Theorem set_start_pattern_no_checked {dev : Type} `{!Transport dev}
    (self : instrument dev) (value : Z) :
  (0 <= value <= 7 ->
     set_start_pattern_no value self = write_register 4144 (PyInt value) 0 self /\
     calls_made (set_start_pattern_no value) self = [WriteRegister 4144 (PyInt value) 0]) /\
  (~ 0 <= value <= 7 ->
     set_start_pattern_no value self = (Raise (InvalidArgument "pattern number"), self) /\
     calls_made (set_start_pattern_no value) self = []).
Proof.
  split; intros Hv.
  - split; [by apply set_start_pattern_no_valid|].
    apply calls_made_intro. rewrite set_start_pattern_no_valid by done.
    apply write_register_calls.
  - assert (set_start_pattern_no value self
            = (Raise (InvalidArgument "pattern number"), self)) as E.
    { unfold set_start_pattern_no, _checkPatternNumber. rewrite _checkInt_bad by lia. done. }
    split; [done|]. by apply calls_made_unchanged in E as [? _].
Qed.

(** X5. [is_running] is [True] exactly when the coil 2068 reads 1 (any
    other answer gives [False]), and an exception of the read goes through
    unchanged.  On the mock, [is_running] is [True] after [run] and [False]
    after [stop], whatever the state before. *)
Theorem run_stop_is_running {dev : Type} `{!Transport dev} (self : instrument dev) :
  (forall b, result (read_bit 2068) self = Return b ->
     result is_running self = Return (b =? 1)) /\
  (forall e, result (read_bit 2068) self = Raise e -> result is_running self = Raise e) /\
  (forall m : instrument mock,
     result (run ;; is_running) m = Return true /\
     result (stop ;; is_running) m = Return false /\
     calls_made (run ;; is_running) m = [WriteBit 2068 1; ReadBit 2068] /\
     calls_made (stop ;; is_running) m = [WriteBit 2068 0; ReadBit 2068]).
Proof.
  split_and!.
  - intros b. unfold result, is_running, bind.
    destruct (read_bit 2068 self) as [r self']. simpl. by intros ->.
  - intros e. unfold result, is_running, bind.
    destruct (read_bit 2068 self) as [r self']. simpl. by intros ->.
  - intros m. unfold result, calls_made, run, stop, is_running, bind, read_bit, write_bit.
    simpl. rewrite !lookup_insert_eq, <- !app_assoc, !drop_app_length. done.
Qed.

(** X6. For a pattern in 0..7, [set_pattern_link_topattern] accepts the
    values 0..8 (8 switches the link off): the value goes to the transport
    in one write of register 4192 + pattern with 0 decimals, and [None] is
    returned unless the write raises.  Any other integer is answered with
    the string "Not a valid value, must be pattern 0-7 or 8 for OFF",
    nothing being written. *)
Theorem set_pattern_link_topattern_range {dev : Type} `{!Transport dev}
    (self : instrument dev) (pattern value : Z) :
  0 <= pattern <= 7 ->
  (0 <= value <= 8 ->
     calls_made (set_pattern_link_topattern pattern value) self
       = [WriteRegister (4192 + pattern) (PyInt value) 0] /\
     result (set_pattern_link_topattern pattern value) self
       = match result (write_register (4192 + pattern) (PyInt value) 0) self with
         | Return _ => Return VNone
         | Raise e => Raise e
         end) /\
  (~ 0 <= value <= 8 ->
     set_pattern_link_topattern pattern value self
     = (Return (VStr "Not a valid value, must be pattern 0-7 or 8 for OFF"), self)).
Proof.
  intros Hp. split; intros Hv.
  - unfold calls_made, result. rewrite set_pattern_link_topattern_valid by done.
    exact (write_then_none (4192 + pattern) (PyInt value) 0 self).
  - by apply set_pattern_link_topattern_bad_value.
Qed.

Lemma set_pattern_link_topattern_range_witness :
  (0 <= 8 <= 8 ->
     calls_made (set_pattern_link_topattern 3 8) (init blank)
       = [WriteRegister (4192 + 3) (PyInt 8) 0] /\
     result (set_pattern_link_topattern 3 8) (init blank)
       = match result (write_register (4192 + 3) (PyInt 8) 0) (init blank) with
         | Return _ => Return VNone
         | Raise e => Raise e
         end) /\
  (~ 0 <= 8 <= 8 ->
     set_pattern_link_topattern 3 8 (init blank)
     = (Return (VStr "Not a valid value, must be pattern 0-7 or 8 for OFF"), init blank)).
Proof. apply (set_pattern_link_topattern_range (init blank) 3 8). lia. Defined.

(** X7. [set_pattern_actual_step] with pattern and value in 0..7 makes one
    transport call, the write of the value at 4160 + pattern with 0
    decimals, and returns [None] unless the write raises.  Conversely it
    returns [None] only after that write: for no pair of integers does it
    return [None] having written nothing. *)
Theorem set_pattern_actual_step_writes {dev : Type} `{!Transport dev}
    (self : instrument dev) (pattern value : Z) :
  (0 <= pattern <= 7 -> 0 <= value <= 7 ->
     calls_made (set_pattern_actual_step pattern value) self
       = [WriteRegister (4160 + pattern) (PyInt value) 0] /\
     result (set_pattern_actual_step pattern value) self
       = match result (write_register (4160 + pattern) (PyInt value) 0) self with
         | Return _ => Return VNone
         | Raise e => Raise e
         end) /\
  (result (set_pattern_actual_step pattern value) self = Return VNone ->
     (0 <= pattern <= 7 /\ 0 <= value <= 7) /\
     calls_made (set_pattern_actual_step pattern value) self
       = [WriteRegister (4160 + pattern) (PyInt value) 0]).
Proof.
  assert (0 <= pattern <= 7 -> 0 <= value <= 7 ->
          calls_made (set_pattern_actual_step pattern value) self
            = [WriteRegister (4160 + pattern) (PyInt value) 0] /\
          result (set_pattern_actual_step pattern value) self
            = match result (write_register (4160 + pattern) (PyInt value) 0) self with
              | Return _ => Return VNone
              | Raise e => Raise e
              end) as Hvalid.
  { intros Hp Hv. unfold calls_made, result.
    rewrite set_pattern_actual_step_valid by done.
    exact (write_then_none (4160 + pattern) (PyInt value) 0 self). }
  split; [exact Hvalid|]. intros Hnone.
  destruct (decide (0 <= pattern <= 7)) as [Hp | Hp].
  - destruct (decide (0 <= value <= 7)) as [Hv | Hv].
    + split; [done|]. by apply Hvalid.
    + unfold result in Hnone.
      rewrite set_pattern_actual_step_bad_value in Hnone by done. discriminate.
  - unfold result in Hnone.
    rewrite set_pattern_actual_step_bad_pattern in Hnone by done. discriminate.
Qed.

(** X8. For a pattern in 0..7 the three getters of per-pattern values make
    one transport call each, the read with 0 decimals of register
    4160 + pattern (actual step), 4176 + pattern (additional cycles) or
    4192 + pattern (link), and hand back the number read; an exception of
    the read goes through unchanged. *)
Theorem per_pattern_getters {dev : Type} `{!Transport dev}
    (self : instrument dev) (pattern : Z) :
  0 <= pattern <= 7 ->
  let read a :=
    match result (read_register a 0) self with
    | Return v => Return (VNum v)
    | Raise e => Raise e
    end in
  (calls_made (get_pattern_actual_step pattern) self = [ReadRegister (4160 + pattern) 0] /\
   result (get_pattern_actual_step pattern) self = read (4160 + pattern)) /\
  (calls_made (get_pattern_additional_cycles pattern) self
     = [ReadRegister (4176 + pattern) 0] /\
   result (get_pattern_additional_cycles pattern) self = read (4176 + pattern)) /\
  (calls_made (get_pattern_link_topattern pattern) self = [ReadRegister (4192 + pattern) 0] /\
   result (get_pattern_link_topattern pattern) self = read (4192 + pattern)).
Proof.
  intros Hp read. unfold calls_made, result.
  rewrite get_pattern_actual_step_valid, get_pattern_additional_cycles_valid,
    get_pattern_link_topattern_valid by done.
  split; [|split].
  - exact (read_then_value (4160 + pattern) 0 self).
  - exact (read_then_value (4176 + pattern) 0 self).
  - exact (read_then_value (4192 + pattern) 0 self).
Qed.

Lemma per_pattern_getters_witness :
  let read a :=
    match result (read_register a 0) (init blank) with
    | Return v => Return (VNum v)
    | Raise e => Raise e
    end in
  (calls_made (get_pattern_actual_step 6) (init blank) = [ReadRegister (4160 + 6) 0] /\
   result (get_pattern_actual_step 6) (init blank) = read (4160 + 6)) /\
  (calls_made (get_pattern_additional_cycles 6) (init blank) = [ReadRegister (4176 + 6) 0] /\
   result (get_pattern_additional_cycles 6) (init blank) = read (4176 + 6)) /\
  (calls_made (get_pattern_link_topattern 6) (init blank) = [ReadRegister (4192 + 6) 0] /\
   result (get_pattern_link_topattern 6) (init blank) = read (4192 + 6)).
Proof. apply (per_pattern_getters (init blank) 6). lia. Defined.

(** X9. For a pattern in 0..7, [set_pattern_additional_cycles] with a
    negative value does nothing and says nothing: no transport call is made,
    instrument and device stay as they were, and [None] is returned, which
    is also what a successful write returns. *)
Theorem set_pattern_additional_cycles_negative {dev : Type} `{!Transport dev}
    (self : instrument dev) (pattern value : Z) :
  0 <= pattern <= 7 -> value < 0 ->
  set_pattern_additional_cycles pattern value self = (Return VNone, self) /\
  calls_made (set_pattern_additional_cycles pattern value) self = [].
Proof.
  intros Hp Hv.
  pose proof (set_pattern_additional_cycles_below pattern value self Hp Hv) as E.
  split; [done|]. by apply calls_made_unchanged in E as [? _].
Qed.

Lemma set_pattern_additional_cycles_negative_witness :
  set_pattern_additional_cycles 4 (-10) (init blank) = (Return VNone, init blank) /\
  calls_made (set_pattern_additional_cycles 4 (-10)) (init blank) = [].
Proof. apply (set_pattern_additional_cycles_negative (init blank) 4 (-10)); lia. Defined.

(** ** Setting, then getting, on the mock *)

(** X10. On the mock every setter is read back by its getter: after a
    setter was called with arguments it accepts, the getter of the same
    quantity (same pattern, same step) returns the value just set.  This holds for the setpoint, the start pattern number, the
    setpoint and the time of a step, and the actual step, additional cycles
    and link of a pattern. *)
Theorem set_then_get (self : instrument mock) :
  (forall value, num_between (PyInt 0) value (setpoint_max self) ->
     result (set_setpoint value ;; get_setpoint) self = Return value) /\
  (forall value, 0 <= value <= 7 ->
     result (set_start_pattern_no value ;; get_start_pattern_no) self
     = Return (PyInt value)) /\
  (forall pattern step value, 0 <= pattern <= 7 -> 0 <= step <= 7 ->
     num_between (PyInt 0) value (setpoint_max self) ->
     result (set_pattern_step_setpoint pattern step value ;;
             get_pattern_step_setpoint pattern step) self = Return value) /\
  (forall pattern step value, 0 <= pattern <= 7 -> 0 <= step <= 7 ->
     num_between (PyInt 0) value (time_max self) ->
     result (set_pattern_step_time pattern step value ;;
             get_pattern_step_time pattern step) self = Return value) /\
  (forall pattern value, 0 <= pattern <= 7 -> 0 <= value <= 7 ->
     result (set_pattern_actual_step pattern value ;;
             get_pattern_actual_step pattern) self = Return (VNum (PyInt value))) /\
  (forall pattern value, 0 <= pattern <= 7 -> 0 <= value <= 99 ->
     result (set_pattern_additional_cycles pattern value ;;
             get_pattern_additional_cycles pattern) self = Return (VNum (PyInt value))) /\
  (forall pattern value, 0 <= pattern <= 7 -> 0 <= value <= 8 ->
     result (set_pattern_link_topattern pattern value ;;
             get_pattern_link_topattern pattern) self = Return (VNum (PyInt value))).
Proof.
  split_and!.
  - intros value Hv. unfold result, bind. rewrite set_setpoint_valid by done.
    simpl. by rewrite lookup_insert_eq.
  - intros value Hv. unfold result, bind. rewrite set_start_pattern_no_valid by done.
    simpl. by rewrite lookup_insert_eq.
  - intros pattern step value Hp Hs Hv. by apply set_get_pattern_step_setpoint.
  - intros pattern step value Hp Hs Hv. unfold result, bind.
    rewrite set_pattern_step_time_valid by done. simpl.
    rewrite get_pattern_step_time_valid by done. simpl.
    by rewrite lookup_insert_eq.
  - intros pattern value Hp Hv. unfold result, bind.
    rewrite set_pattern_actual_step_valid by done. simpl.
    rewrite get_pattern_actual_step_valid by done. simpl.
    by rewrite lookup_insert_eq.
  - intros pattern value Hp Hv. unfold result, bind.
    rewrite set_pattern_additional_cycles_valid by done. simpl.
    rewrite get_pattern_additional_cycles_valid by done. simpl.
    by rewrite lookup_insert_eq.
  - intros pattern value Hp Hv. unfold result, bind.
    rewrite set_pattern_link_topattern_valid by done. simpl.
    rewrite get_pattern_link_topattern_valid by done. simpl.
    by rewrite lookup_insert_eq.
Qed.

(** X11. On the mock, setting the setpoint of one step changes what no
    other getter of step values returns: the setpoint of every other
    (pattern, step) and the time of every step read as before; and the same
    with the roles of setpoint and time exchanged. *)
Theorem set_pattern_step_frame (self : instrument mock) (pattern step : Z) (value : number) :
  0 <= pattern <= 7 -> 0 <= step <= 7 ->
  (num_between (PyInt 0) value (setpoint_max self) ->
   forall pattern' step', 0 <= pattern' <= 7 -> 0 <= step' <= 7 ->
     ((pattern', step') <> (pattern, step) ->
      result (set_pattern_step_setpoint pattern step value ;;
              get_pattern_step_setpoint pattern' step') self
      = result (get_pattern_step_setpoint pattern' step') self) /\
     result (set_pattern_step_setpoint pattern step value ;;
             get_pattern_step_time pattern' step') self
     = result (get_pattern_step_time pattern' step') self) /\
  (num_between (PyInt 0) value (time_max self) ->
   forall pattern' step', 0 <= pattern' <= 7 -> 0 <= step' <= 7 ->
     ((pattern', step') <> (pattern, step) ->
      result (set_pattern_step_time pattern step value ;;
              get_pattern_step_time pattern' step') self
      = result (get_pattern_step_time pattern' step') self) /\
     result (set_pattern_step_time pattern step value ;;
             get_pattern_step_setpoint pattern' step') self
     = result (get_pattern_step_setpoint pattern' step') self).
Proof.
  intros Hp Hs.
  assert (forall pattern' step', (pattern', step') <> (pattern, step) ->
            pattern' <> pattern \/ step' <> step) as Hne.
  { intros p' s' Hps. destruct (decide (p' = pattern)) as [-> |]; [|by left].
    destruct (decide (s' = step)) as [-> |]; [done | by right]. }
  split; intros Hv pattern' step' Hp' Hs'; split.
  - intros Hps. apply Hne in Hps. unfold result, bind.
    rewrite set_pattern_step_setpoint_valid by done. simpl.
    rewrite !get_pattern_step_setpoint_valid by done. simpl.
    rewrite lookup_insert_ne by lia. done.
  - unfold result, bind.
    rewrite set_pattern_step_setpoint_valid by done. simpl.
    rewrite !get_pattern_step_time_valid by done. simpl.
    rewrite lookup_insert_ne by lia. done.
  - intros Hps. apply Hne in Hps. unfold result, bind.
    rewrite set_pattern_step_time_valid by done. simpl.
    rewrite !get_pattern_step_time_valid by done. simpl.
    rewrite lookup_insert_ne by lia. done.
  - unfold result, bind.
    rewrite set_pattern_step_time_valid by done. simpl.
    rewrite !get_pattern_step_setpoint_valid by done. simpl.
    rewrite lookup_insert_ne by lia. done.
Qed.

Lemma set_pattern_step_frame_witness :
  (num_between (PyInt 0) (PyInt 300) (setpoint_max (init blank)) ->
   forall pattern' step', 0 <= pattern' <= 7 -> 0 <= step' <= 7 ->
     ((pattern', step') <> (1, 7) ->
      result (set_pattern_step_setpoint 1 7 (PyInt 300) ;;
              get_pattern_step_setpoint pattern' step') (init blank)
      = result (get_pattern_step_setpoint pattern' step') (init blank)) /\
     result (set_pattern_step_setpoint 1 7 (PyInt 300) ;;
             get_pattern_step_time pattern' step') (init blank)
     = result (get_pattern_step_time pattern' step') (init blank)) /\
  (num_between (PyInt 0) (PyInt 300) (time_max (init blank)) ->
   forall pattern' step', 0 <= pattern' <= 7 -> 0 <= step' <= 7 ->
     ((pattern', step') <> (1, 7) ->
      result (set_pattern_step_time 1 7 (PyInt 300) ;;
              get_pattern_step_time pattern' step') (init blank)
      = result (get_pattern_step_time pattern' step') (init blank)) /\
     result (set_pattern_step_time 1 7 (PyInt 300) ;;
             get_pattern_step_setpoint pattern' step') (init blank)
     = result (get_pattern_step_setpoint pattern' step') (init blank)).
Proof. apply (set_pattern_step_frame (init blank) 1 7 (PyInt 300)); lia. Defined.

(** ** A whole pattern written, then listed, on the mock *)

Lemma bind_lift_Return {dev A B} (a : A) (k : A -> M dev B) (self : instrument dev) :
  bind (lift (Return a)) k self = k a self.
Proof. reflexivity. Qed.

Lemma bind_write_mock {B} a v d (k : unit -> M mock B) (self : instrument mock) :
  bind (write_register a v d) k self = k tt (mock_written self a v d).
Proof. reflexivity. Qed.

Lemma stored_written_eq (self : instrument mock) a v d :
  stored (mock_written self a v d) a = v.
Proof. unfold stored, mock_written. simpl. by rewrite lookup_insert_eq. Qed.

Lemma stored_written_ne (self : instrument mock) a v d a' :
  a <> a' -> stored (mock_written self a v d) a' = stored self a'.
Proof. intros Ha. unfold stored, mock_written. simpl. by rewrite lookup_insert_ne. Qed.

Lemma mock_replay_writes (self : instrument mock) (cs : list call) :
  Forall (fun c => exists a v d, c = WriteRegister a v d) cs ->
  calls (mock_replay self cs) = calls self ++ cs /\
  stdout (mock_replay self cs) = stdout self /\
  setpoint_max (mock_replay self cs) = setpoint_max self /\
  time_max (mock_replay self cs) = time_max self.
Proof.
  intros Hcs. revert self. induction Hcs as [| c cs (a & v & d & ->) _ IH]; intros self.
  - simpl. by rewrite app_nil_r.
  - simpl. destruct (IH (mock_written self a v d)) as (Hc & Hs & Hm & Ht).
    rewrite Hc, Hs, Hm, Ht. simpl. rewrite <- app_assoc. done.
Qed.

Lemma pattern_writes_are_writes pattern
    sp0 ti0 sp1 ti1 sp2 ti2 sp3 ti3 sp4 ti4 sp5 ti5 sp6 ti6 sp7 ti7
    actual_step additional_cycles link_pattern :
  Forall (fun c => exists a v d, c = WriteRegister a v d)
    (pattern_writes pattern sp0 ti0 sp1 ti1 sp2 ti2 sp3 ti3 sp4 ti4
       sp5 ti5 sp6 ti6 sp7 ti7 actual_step additional_cycles link_pattern).
Proof. unfold pattern_writes. repeat constructor; by repeat eexists. Qed.

Lemma set_all_pattern_variables_mock (self : instrument mock) pattern
    sp0 ti0 sp1 ti1 sp2 ti2 sp3 ti3 sp4 ti4 sp5 ti5 sp6 ti6 sp7 ti7
    actual_step additional_cycles link_pattern :
  0 <= pattern <= 7 ->
  set_all_pattern_variables pattern sp0 ti0 sp1 ti1 sp2 ti2 sp3 ti3 sp4 ti4
    sp5 ti5 sp6 ti6 sp7 ti7 actual_step additional_cycles link_pattern self
  = (Return VNone,
     mock_replay self
       (pattern_writes pattern sp0 ti0 sp1 ti1 sp2 ti2 sp3 ti3 sp4 ti4
          sp5 ti5 sp6 ti6 sp7 ti7 actual_step additional_cycles link_pattern)).
Proof.
  intros Hp. unfold set_all_pattern_variables.
  rewrite !setpoint_address, !time_address, actual_step_address,
    additional_cycles_address, link_pattern_address by lia.
  repeat (rewrite bind_lift_Return; cbv beta).
  repeat (rewrite bind_write_mock; cbv beta).
  reflexivity.
Qed.

Ltac stored_after_writes :=
  repeat first [rewrite stored_written_eq | rewrite stored_written_ne by lia].

Lemma stored_after_pattern_writes (self : instrument mock) pattern
    sp0 ti0 sp1 ti1 sp2 ti2 sp3 ti3 sp4 ti4 sp5 ti5 sp6 ti6 sp7 ti7
    actual_step additional_cycles link_pattern :
  0 <= pattern <= 7 ->
  let after := mock_replay self
                 (pattern_writes pattern sp0 ti0 sp1 ti1 sp2 ti2 sp3 ti3 sp4 ti4
                    sp5 ti5 sp6 ti6 sp7 ti7 actual_step additional_cycles link_pattern) in
  pattern_listing
    (stored after (8192 + 8 * pattern + 0)) (stored after (8192 + 8 * pattern + 1))
    (stored after (8192 + 8 * pattern + 2)) (stored after (8192 + 8 * pattern + 3))
    (stored after (8192 + 8 * pattern + 4)) (stored after (8192 + 8 * pattern + 5))
    (stored after (8192 + 8 * pattern + 6)) (stored after (8192 + 8 * pattern + 7))
    (stored after (8320 + 8 * pattern + 0)) (stored after (8320 + 8 * pattern + 1))
    (stored after (8320 + 8 * pattern + 2)) (stored after (8320 + 8 * pattern + 3))
    (stored after (8320 + 8 * pattern + 4)) (stored after (8320 + 8 * pattern + 5))
    (stored after (8320 + 8 * pattern + 6)) (stored after (8320 + 8 * pattern + 7))
    (stored after (4160 + pattern)) (stored after (4176 + pattern))
    (stored after (4192 + pattern))
  = pattern_listing sp0 sp1 sp2 sp3 sp4 sp5 sp6 sp7 ti0 ti1 ti2 ti3 ti4 ti5 ti6 ti7
      actual_step additional_cycles link_pattern.
Proof.
  intros Hp after. unfold after, pattern_writes, mock_replay. cbn [foldl].
  stored_after_writes. reflexivity.
Qed.

(** X12. On the mock, for a pattern in 0..7, [get_all_pattern_variables]
    after [set_all_pattern_variables] on the same pattern lists exactly the
    19 values that were passed, each under its own label (the setpoint and
    the time of step [i] on line [i], although the arguments come
    interleaved and the writes do not), after 19 writes followed by 19
    reads. *)
Theorem set_all_then_get_all (self : instrument mock) (pattern : Z)
    (sp0 ti0 sp1 ti1 sp2 ti2 sp3 ti3 sp4 ti4 sp5 ti5 sp6 ti6 sp7 ti7 : number)
    (actual_step additional_cycles link_pattern : number) :
  0 <= pattern <= 7 ->
  let m := set_all_pattern_variables pattern sp0 ti0 sp1 ti1 sp2 ti2 sp3 ti3 sp4 ti4
             sp5 ti5 sp6 ti6 sp7 ti7 actual_step additional_cycles link_pattern ;;
           get_all_pattern_variables pattern in
  result m self = Return VNone /\
  printed m self
  = pattern_listing sp0 sp1 sp2 sp3 sp4 sp5 sp6 sp7 ti0 ti1 ti2 ti3 ti4 ti5 ti6 ti7
      actual_step additional_cycles link_pattern /\
  calls_made m self
  = pattern_writes pattern sp0 ti0 sp1 ti1 sp2 ti2 sp3 ti3 sp4 ti4
      sp5 ti5 sp6 ti6 sp7 ti7 actual_step additional_cycles link_pattern
    ++ pattern_reads pattern.
Proof.
  intros Hp m.
  set (ws := pattern_writes pattern sp0 ti0 sp1 ti1 sp2 ti2 sp3 ti3 sp4 ti4
               sp5 ti5 sp6 ti6 sp7 ti7 actual_step additional_cycles link_pattern).
  set (after := mock_replay self ws).
  assert (m self = get_all_pattern_variables pattern after) as E.
  { unfold m, bind, after, ws. rewrite set_all_pattern_variables_mock by exact Hp.
    reflexivity. }
  destruct (mock_replay_writes self ws (pattern_writes_are_writes _ _ _ _ _ _ _ _ _ _ _
              _ _ _ _ _ _ _ _ _)) as (Hcalls & Hout & _).
  fold after in Hcalls, Hout.
  destruct (get_all_pattern_variables_reads pattern mock_reads_ok Hp after)
    as (cs & ls & Hc & Hs & Hres & -> & _).
  pose proof (get_all_pattern_variables_mock_listing after pattern Hp) as Hlist.
  unfold printed in Hlist. rewrite Hs, drop_app_length in Hlist.
  unfold after, ws in Hlist. rewrite stored_after_pattern_writes in Hlist by exact Hp.
  unfold result, printed, calls_made. rewrite E, Hc, Hs, Hcalls, Hout.
  split; [exact Hres|]. split.
  - rewrite drop_app_length. exact Hlist.
  - rewrite <- app_assoc. apply drop_app_length.
Qed.

Lemma set_all_then_get_all_witness :
  let m := set_all_pattern_variables 4
             (PyInt 100) (PyInt 10) (PyInt 200) (PyInt 20) (PyInt 300) (PyInt 30)
             (PyInt 400) (PyInt 40) (PyInt 500) (PyInt 50) (PyInt 600) (PyInt 60)
             (PyInt 700) (PyInt 70) (PyInt 800) (PyInt 80) (PyInt 7) (PyInt 2) (PyInt 8) ;;
           get_all_pattern_variables 4 in
  result m (init blank) = Return VNone /\
  printed m (init blank)
  = pattern_listing (PyInt 100) (PyInt 200) (PyInt 300) (PyInt 400) (PyInt 500) (PyInt 600)
      (PyInt 700) (PyInt 800) (PyInt 10) (PyInt 20) (PyInt 30) (PyInt 40) (PyInt 50)
      (PyInt 60) (PyInt 70) (PyInt 80) (PyInt 7) (PyInt 2) (PyInt 8) /\
  calls_made m (init blank)
  = pattern_writes 4
      (PyInt 100) (PyInt 10) (PyInt 200) (PyInt 20) (PyInt 300) (PyInt 30)
      (PyInt 400) (PyInt 40) (PyInt 500) (PyInt 50) (PyInt 600) (PyInt 60)
      (PyInt 700) (PyInt 70) (PyInt 800) (PyInt 80) (PyInt 7) (PyInt 2) (PyInt 8)
    ++ pattern_reads 4.
Proof.
  apply (set_all_then_get_all (init blank) 4
           (PyInt 100) (PyInt 10) (PyInt 200) (PyInt 20) (PyInt 300) (PyInt 30)
           (PyInt 400) (PyInt 40) (PyInt 500) (PyInt 50) (PyInt 600) (PyInt 60)
           (PyInt 700) (PyInt 70) (PyInt 800) (PyInt 80) (PyInt 7) (PyInt 2) (PyInt 8)).
  lia.
Defined.

(** ** The control mode, again *)

Lemma CONTROL_MODES_names k name :
  CONTROL_MODES !! k = Some name ->
  (k = 0 /\ name = "PID") \/ (k = 1 /\ name = "ON/OFF") \/
  (k = 2 /\ name = "Manual Tuning") \/ (k = 3 /\ name = "Program").
Proof.
  intros Hk. destruct (decide (0 <= k <= 3)) as [Hr | Hr].
  - assert (k = 0 \/ k = 1 \/ k = 2 \/ k = 3) as [-> | [-> | [-> | ->]]] by lia;
      vm_compute in Hk; injection Hk as <-; auto.
  - rewrite CONTROL_MODES_other in Hk by done. discriminate.
Qed.

(** X13. [get_control_mode] hands back nothing but the four mode names,
    and an exception of the read of register 4101 goes through as it is (it
    is not turned into a [ParseError]).  On the mock, for every code in
    0..3, [get_control_mode] after [set_control_mode] returns the name
    [CONTROL_MODES] gives to that code. *)
Theorem control_mode_names {dev : Type} `{!Transport dev} (self : instrument dev) :
  (forall name, result get_control_mode self = Return name ->
     name = "PID" \/ name = "ON/OFF" \/ name = "Manual Tuning" \/ name = "Program") /\
  (forall e, result (read_register 4101 0) self = Raise e ->
     result get_control_mode self = Raise e) /\
  (forall (m : instrument mock) value, 0 <= value <= 3 ->
     exists name, CONTROL_MODES !! value = Some name /\
       result (set_control_mode value ;; get_control_mode) m = Return name).
Proof.
  split_and!.
  - intros name. unfold result, get_control_mode, bind.
    destruct (read_register 4101 0 self) as [[v | e] self']; simpl; [|done].
    unfold dict_get. destruct (dict_key v) as [k |]; simpl; [|done].
    destruct (CONTROL_MODES !! k) as [name' |] eqn:Hk; simpl; [|done].
    intros [= <-]. apply CONTROL_MODES_names in Hk.
    destruct Hk as [[_ ->] | [[_ ->] | [[_ ->] | [_ ->]]]]; auto.
  - intros e. unfold result, get_control_mode, bind.
    destruct (read_register 4101 0 self) as [r self']. simpl. by intros ->.
  - intros m value Hv.
    assert (exists name, CONTROL_MODES !! value = Some name) as [name Hname].
    { assert (value = 0 \/ value = 1 \/ value = 2 \/ value = 3)
        as [-> | [-> | [-> | ->]]] by lia; eexists; vm_compute; reflexivity. }
    exists name. split; [done|]. unfold result, bind.
    rewrite set_control_mode_valid by done. simpl.
    unfold get_control_mode, bind, read_register. simpl.
    rewrite lookup_insert_eq. simpl. unfold dict_get. simpl. by rewrite Hname.
Qed.

(** ** The limits of the instrument *)

Section Limits.
Context {dev : Type} `{!Transport dev}.
Implicit Types (self : instrument dev).

Lemma keeps_ret {A} (a : A) self : keeps_limits (ret a) self.
Proof. done. Qed.

Lemma keeps_raise {A} e self : keeps_limits (raise (A := A) e) self.
Proof. done. Qed.

Lemma keeps_lift {A} (o : outcome A) self : keeps_limits (lift o) self.
Proof. done. Qed.

Lemma keeps_print line self : keeps_limits (print line) self.
Proof. done. Qed.

Lemma keeps_read_register a d self : keeps_limits (read_register a d) self.
Proof.
  unfold keeps_limits, read_register. by destruct (tr_read_register a d (device self)).
Qed.

Lemma keeps_write_register a v d self : keeps_limits (write_register a v d) self.
Proof.
  unfold keeps_limits, write_register. by destruct (tr_write_register a v d (device self)).
Qed.

Lemma keeps_read_bit a self : keeps_limits (read_bit a) self.
Proof. unfold keeps_limits, read_bit. by destruct (tr_read_bit a (device self)). Qed.

Lemma keeps_write_bit a v self : keeps_limits (write_bit a v) self.
Proof. unfold keeps_limits, write_bit. by destruct (tr_write_bit a v (device self)). Qed.

Lemma keeps_bind {A B} (m : M dev A) (k : A -> M dev B) self :
  keeps_limits m self -> (forall a self', keeps_limits (k a) self') ->
  keeps_limits (bind m k) self.
Proof.
  intros [Hs Ht] Hk. unfold keeps_limits, bind in *.
  destruct (m self) as [[a | e] self1]; simpl in *; [|done].
  destruct (Hk a self1) as [Hs' Ht']. split; congruence.
Qed.

End Limits.

Ltac keeps_limits_step :=
  lazymatch goal with
  | |- keeps_limits (ret _) _ => apply keeps_ret
  | |- keeps_limits (raise _) _ => apply keeps_raise
  | |- keeps_limits (lift _) _ => apply keeps_lift
  | |- keeps_limits (print _) _ => apply keeps_print
  | |- keeps_limits (read_register _ _) _ => apply keeps_read_register
  | |- keeps_limits (write_register _ _ _) _ => apply keeps_write_register
  | |- keeps_limits (read_bit _) _ => apply keeps_read_bit
  | |- keeps_limits (write_bit _ _) _ => apply keeps_write_bit
  | |- keeps_limits (bind _ _) _ => apply keeps_bind; [| intros ? ?]
  | |- keeps_limits (if ?c then _ else _) _ => destruct c
  | |- keeps_limits (match ?o with _ => _ end) _ => destruct o
  end.

(** X14. No method of the driver changes the two limits of the instrument:
    whatever the arguments and whatever the transport does, [setpoint_max]
    and [time_max] are after the call what they were before it. *)
Theorem methods_keep_limits {dev : Type} `{!Transport dev} (self : instrument dev) :
  keeps_limits get_pv self /\ keeps_limits run self /\ keeps_limits stop self /\
  keeps_limits is_running self /\ keeps_limits get_setpoint self /\
  (forall value, keeps_limits (set_setpoint value) self) /\
  keeps_limits get_control_mode self /\
  (forall value, keeps_limits (set_control_mode value) self) /\
  keeps_limits get_start_pattern_no self /\
  (forall value, keeps_limits (set_start_pattern_no value) self) /\
  (forall pattern step, keeps_limits (get_pattern_step_setpoint pattern step) self) /\
  (forall pattern step value,
     keeps_limits (set_pattern_step_setpoint pattern step value) self) /\
  (forall pattern step, keeps_limits (get_pattern_step_time pattern step) self) /\
  (forall pattern step value, keeps_limits (set_pattern_step_time pattern step value) self) /\
  (forall pattern, keeps_limits (get_pattern_actual_step pattern) self) /\
  (forall pattern value, keeps_limits (set_pattern_actual_step pattern value) self) /\
  (forall pattern, keeps_limits (get_pattern_additional_cycles pattern) self) /\
  (forall pattern value, keeps_limits (set_pattern_additional_cycles pattern value) self) /\
  (forall pattern, keeps_limits (get_pattern_link_topattern pattern) self) /\
  (forall pattern value, keeps_limits (set_pattern_link_topattern pattern value) self) /\
  (forall pattern, keeps_limits (get_all_pattern_variables pattern) self) /\
  (forall pattern sp0 ti0 sp1 ti1 sp2 ti2 sp3 ti3 sp4 ti4 sp5 ti5 sp6 ti6 sp7 ti7
          actual_step additional_cycles link_pattern,
     keeps_limits
       (set_all_pattern_variables pattern sp0 ti0 sp1 ti1 sp2 ti2 sp3 ti3 sp4 ti4
          sp5 ti5 sp6 ti6 sp7 ti7 actual_step additional_cycles link_pattern) self) /\
  keeps_limits get_output1 self.
Proof.
  split_and!; intros.
  - apply keeps_read_register.
  - apply keeps_write_bit.
  - apply keeps_write_bit.
  - unfold is_running. repeat keeps_limits_step.
  - apply keeps_read_register.
  - change (keeps_limits (lift (_checkSetpointValue value (setpoint_max self)) ;;
                          write_register 4097 value 1) self).
    repeat keeps_limits_step.
  - unfold get_control_mode. repeat keeps_limits_step.
  - unfold set_control_mode. repeat keeps_limits_step.
  - apply keeps_read_register.
  - unfold set_start_pattern_no. repeat keeps_limits_step.
  - unfold get_pattern_step_setpoint. repeat keeps_limits_step.
  - change (keeps_limits
              (lift (_checkPatternNumber pattern) ;;
               lift (_checkStepNumber step) ;;
               lift (_checkSetpointValue value (setpoint_max self)) ;;
               address <- lift (step_address setpoint_addresses pattern step) ;;
               write_register address value 1) self).
    repeat keeps_limits_step.
  - unfold get_pattern_step_time. repeat keeps_limits_step.
  - change (keeps_limits
              (lift (_checkPatternNumber pattern) ;;
               lift (_checkStepNumber step) ;;
               lift (_checkTimeValue value (time_max self)) ;;
               address <- lift (step_address time_addresses pattern step) ;;
               write_register address value 0) self).
    repeat keeps_limits_step.
  - unfold get_pattern_actual_step. repeat keeps_limits_step.
  - unfold set_pattern_actual_step. repeat keeps_limits_step.
  - unfold get_pattern_additional_cycles. repeat keeps_limits_step.
  - unfold set_pattern_additional_cycles. repeat keeps_limits_step.
  - unfold get_pattern_link_topattern. repeat keeps_limits_step.
  - unfold set_pattern_link_topattern. repeat keeps_limits_step.
  - unfold get_all_pattern_variables. repeat keeps_limits_step.
  - unfold set_all_pattern_variables. repeat keeps_limits_step.
  - apply keeps_read_register.
Qed.
